(** * anexos_simples.py: bracket, annex and nominal-rate resolution

    A shallow embedding of [anexos_simples.py].  Python's [float] is the
    IEEE 754 binary64 format, which is what Rocq's primitive [float] is, so
    revenue, payroll and rates are primitive floats and every comparison,
    product and quotient below is the binary64 one the interpreter performs.
    [Dict[str, _]] is a [gmap string _], a raised exception is the [Raise]
    branch of [result]. *)

From Stdlib Require Import ZArith Floats Bool Lia.
From stdpp Require Import gmap strings list fin_maps.

Set Warnings "-inexact-float".

(** ** The Python runtime the module relies on *)

Module Py.

(** The exceptions the module can raise, one constructor per raise site
    (the payload is what the source formats into the message). *)
Inductive exn : Type :=
| ValueError_fora_do_limite
    (* ValueError("RBT12 fora do limite do Simples (0 a 4,8 milhoes).") *)
| KeyError_item (key : string)
    (* item["cnae"] on a dict that has no such key *)
| KeyError_cnae (cnae : string)
    (* KeyError(f"CNAE {cnae} nao encontrado na tabela.") *)
| KeyError_aliquota (anexo : string) (faixa : Z)
    (* KeyError(f"Aliquota nao encontrada para Anexo {anexo}, faixa {faixa}.") *)
| IndexError_list
    (* list index out of range *)
| ZeroDivisionError.
    (* float division by zero *)

(** The Python class of each exception. *)
Inductive exn_class : Type := ValueError | KeyError | IndexError | ZeroDivision.

Definition class_of (e : exn) : exn_class :=
  match e with
  | ValueError_fora_do_limite => ValueError
  | KeyError_item _ | KeyError_cnae _ | KeyError_aliquota _ _ => KeyError
  | IndexError_list => IndexError
  | ZeroDivisionError => ZeroDivision
  end.

Inductive result (A : Type) : Type :=
| Ok (a : A)
| Raise (e : exn).
Arguments Ok {A} a.
Arguments Raise {A} e.

#[global] Instance result_ret : MRet result := fun A a => Ok a.
#[global] Instance result_bind : MBind result := fun A B k m =>
  match m with
  | Ok a => k a
  | Raise e => Raise e
  end.
#[global] Instance result_fmap : FMap result := fun A B f m =>
  match m with
  | Ok a => Ok (f a)
  | Raise e => Raise e
  end.

(** The value a call returns, if it returns. *)
Definition returned {A} (m : result A) : option A :=
  match m with
  | Ok a => Some a
  | Raise _ => None
  end.

(** [l[0]] *)
Definition index0 {A} (l : list A) : result A :=
  match l with
  | x :: _ => Ok x
  | [] => Raise IndexError_list
  end.

(** [x / y] on floats: Python raises on a zero divisor (of either sign)
    where IEEE 754 would give an infinity or NaN. *)
Definition truediv (x y : float) : result float :=
  if (y =? 0)%float then Raise ZeroDivisionError else Ok (x / y)%float.

(** Truth value of an [Optional[str]]: [None] and the empty string are
    false. *)
Definition str_informado (o : option string) : option string :=
  match o with
  | Some s => if bool_decide (s = "") then None else Some s
  | None => None
  end.

(** A JSON scalar, as [json.load] hands it over, and [bool(_)] on it. *)
Inductive scalar : Type :=
| JNull
| JBool (b : bool)
| JInt (z : Z)
| JStr (s : string).

Definition bool_of (v : scalar) : bool :=
  match v with
  | JNull => false
  | JBool b => b
  | JInt z => negb (z =? 0)%Z
  | JStr s => negb (bool_decide (s = ""))
  end.

End Py.
Import Py.

(** ** Constants *)

Local Open Scope float_scope.

(** Revenue brackets: (bracket, lower bound, upper bound). *)
Definition FAIXAS : list (Z * float * float) :=
  [ (1%Z, 0.00,        180000.00);
    (2%Z, 180000.01,   360000.00);
    (3%Z, 360000.01,   720000.00);
    (4%Z, 720000.01,  1800000.00);
    (5%Z, 1800000.01, 3600000.00);
    (6%Z, 3600000.01, 4800000.00) ].

(** A dict literal with bracket keys. *)
Definition por_faixa (l : list (Z * float)) : gmap Z float := list_to_map l.

(** Nominal rates by annex and bracket. *)
Definition ALIQUOTAS_NOMINAIS : gmap string (gmap Z float) :=
  list_to_map
    [ ("I",   por_faixa [(1%Z, 0.040); (2%Z, 0.073); (3%Z, 0.095); (4%Z, 0.107); (5%Z, 0.143); (6%Z, 0.190)]);
      ("II",  por_faixa [(1%Z, 0.045); (2%Z, 0.078); (3%Z, 0.100); (4%Z, 0.112); (5%Z, 0.147); (6%Z, 0.300)]);
      ("III", por_faixa [(1%Z, 0.060); (2%Z, 0.112); (3%Z, 0.135); (4%Z, 0.160); (5%Z, 0.210); (6%Z, 0.330)]);
      ("IV",  por_faixa [(1%Z, 0.045); (2%Z, 0.090); (3%Z, 0.102); (4%Z, 0.140); (5%Z, 0.220); (6%Z, 0.330)]);
      ("V",   por_faixa [(1%Z, 0.155); (2%Z, 0.180); (3%Z, 0.195); (4%Z, 0.205); (5%Z, 0.230); (6%Z, 0.305)]) ].

Local Close Scope float_scope.

(** The five values of the [Anexo] literal type, and the six brackets. *)
Definition ANEXOS : list string := ["I"; "II"; "III"; "IV"; "V"].
Definition BRACKETS : list Z := [1; 2; 3; 4; 5; 6]%Z.

(** ** The classification table *)

Record CNAEInfo : Type := mkCNAEInfo {
  cnae : string;
  descricao : string;
  anexos : list string;
  fator_r : bool;
  natureza : string
}.

(** One element of the loaded JSON list: a dict in which any key may be
    missing; a key that is present carries a value of the field's type
    (the flag is whatever scalar the file holds, [bool(_)] coerces it). *)
Record item : Type := mkItem {
  item_cnae : option string;
  item_descricao : option string;
  item_anexos : option (list string);
  item_fator_r : option scalar;
  item_natureza : option string
}.

(** The [CNAEInfo(...)] built for an item whose ["cnae"] is [c]. *)
Definition info_de (c : string) (it : item) : CNAEInfo :=
  {| cnae := c;
     descricao := default "" (item_descricao it);
     anexos := default [] (item_anexos it);
     fator_r := bool_of (default (JBool false) (item_fator_r it));
     natureza := default "servicos" (item_natureza it) |}.

(** The body of the [for item in obj] loop, threading [tabela]. *)
Fixpoint carregar_loop (obj : list item) (tabela : gmap string CNAEInfo)
  : result (gmap string CNAEInfo) :=
  match obj with
  | [] => Ok tabela
  | it :: rest =>
      match item_cnae it with
      | None => Raise (KeyError_item "cnae")
      | Some c => carregar_loop rest (<[c := info_de c it]> tabela)
      end
  end.

Definition carregar_tabela_cnae (obj : list item) : result (gmap string CNAEInfo) :=
  carregar_loop obj ∅.

(** ** Bracket by revenue *)

Fixpoint faixa_loop (faixas : list (Z * float * float)) (rbt12 : float) : result Z :=
  match faixas with
  | [] => Raise ValueError_fora_do_limite
  | (faixa, ini, fim) :: rest =>
      if (ini <=? rbt12)%float && (rbt12 <=? fim)%float then Ok faixa
      else faixa_loop rest rbt12
  end.

Definition faixa_por_rbt12 (rbt12 : float) : result Z := faixa_loop FAIXAS rbt12.

(** ** Annex by activity code *)

(** The set literal [{"III", "V"}]. *)
Definition III_V : gset string := {["III"; "V"]}.

Definition resolver_anexo_por_cnae
    (cnae : string) (rbt12 : float) (folha_12m : option float)
    (tabela_cnae : gmap string CNAEInfo) (anexo_forcado : option string)
  : result string :=
  match str_informado anexo_forcado with
  | Some forcado => Ok forcado
  | None =>
      match tabela_cnae !! cnae with
      | None => Raise (KeyError_cnae cnae)
      | Some info =>
          if (length (anexos info) =? 1)%nat then index0 (anexos info)
          else if bool_decide (list_to_set (anexos info) = III_V) && fator_r info then
            match folha_12m with
            | None => Ok "V"
            | Some folha =>
                if (rbt12 <=? 0)%float then Ok "V"
                else
                  fator ← truediv folha rbt12;
                  Ok (if (0.28 <=? fator)%float then "III" else "V")
            end
          else index0 (anexos info)
      end
  end.

(** ** Nominal rate by annex and revenue *)

Definition aliquota_nominal_por_anexo (anexo : string) (rbt12 : float)
  : result (Z * float) :=
  faixa ← faixa_por_rbt12 rbt12;
  match ALIQUOTAS_NOMINAIS !! anexo ≫= (.!! faixa) with
  | Some aliq => Ok (faixa, aliq)
  | None => Raise (KeyError_aliquota anexo faixa)
  end.

(** The dict [obter_aliquota_por_cnae] returns, one field per key. *)
Record Resultado : Type := mkResultado {
  anexo : string;
  faixa : Z;
  aliquota_nominal : float;
  aliquota_nominal_pct : float;
  rbt12 : float;
  faturamento_mensal_medio : float
}.

Definition obter_aliquota_por_cnae
    (cnae : string) (rbt12 : float) (folha_12m : option float)
    (tabela_cnae : gmap string CNAEInfo) (anexo_forcado : option string)
  : result Resultado :=
  anexo ← resolver_anexo_por_cnae cnae rbt12 folha_12m tabela_cnae anexo_forcado;
  '(faixa, aliq_nom) ← aliquota_nominal_por_anexo anexo rbt12;
  medio ← truediv rbt12 12.0;
  Ok (mkResultado anexo faixa aliq_nom (aliq_nom * 100)%float rbt12 medio).

(** ** Auxiliary definitions for the statements *)

(** The row of [FAIXAS] a revenue lies in. *)
Definition na_faixa (linha : Z * float * float) (r : float) : bool :=
  let '(_, ini, fim) := linha in (ini <=? r)%float && (r <=? fim)%float.

(** [ALIQUOTAS_NOMINAIS[a][f]], when both keys are there. *)
Definition aliquota_de (a : string) (f : Z) : option float :=
  ALIQUOTAS_NOMINAIS !! a ≫= (.!! f).

Definition em_0_1 (o : option float) : bool :=
  match o with
  | Some x => (0 <=? x)%float && (x <? 1)%float
  | None => false
  end.

(** ** Sample inputs *)

(** The table of the three examples at the end of the source file. *)
Definition tabela_exemplo : result (gmap string CNAEInfo) :=
  carregar_tabela_cnae
    [ mkItem (Some "62.01-5-01") (Some "software") (Some ["III"; "V"]) (Some (JBool true)) (Some "servicos");
      mkItem (Some "47.51-2-01") (Some "comercio") (Some ["I"]) (Some (JBool false)) (Some "comercio");
      mkItem (Some "71.12-0-00") (Some "engenharia") (Some ["III"; "V"]) (Some (JBool true)) None ].

Definition obter_exemplo (c : string) (r : float) (folha : option float)
  : result (string * Z * float) :=
  t ← tabela_exemplo;
  res ← obter_aliquota_por_cnae c r folha t None;
  Ok (anexo res, faixa res, aliquota_nominal res).

(** A one-row table with a Factor R activity, and one with a single annex. *)
Definition info_software : CNAEInfo :=
  mkCNAEInfo "62.01-5-01" "software" ["III"; "V"] true "servicos".
Definition tabela_software : gmap string CNAEInfo := {["62.01-5-01" := info_software]}.

Definition info_comercio : CNAEInfo :=
  mkCNAEInfo "47.51-2-01" "comercio" ["I"] false "comercio".
Definition tabela_comercio : gmap string CNAEInfo := {["47.51-2-01" := info_comercio]}.

(** An item with nothing but its code, and two items with one code. *)
Definition item_sem_anexos : item := mkItem (Some "99.99-9-99") None None None None.

Definition item_antigo : item :=
  mkItem (Some "62.01-5-01") (Some "antigo") (Some ["V"]) (Some (JBool false)) (Some "comercio").
Definition item_novo : item :=
  mkItem (Some "62.01-5-01") (Some "novo") (Some ["III"; "V"]) (Some (JBool true)) (Some "servicos").

(** ** Auxiliary definitions for the further properties *)

(** The revenue is within the limits the error message names. *)
Definition no_limite (r : float) : bool :=
  (0 <=? r)%float && (r <=? 4800000)%float.

(** The open intervals between the upper bound of a row of [FAIXAS] and the
    lower bound of the next row: (upper bound, next lower bound). *)
Definition LACUNAS : list (float * float) :=
  zip (map snd FAIXAS) (map (λ linha, linha.1.2) (tail FAIXAS)).

Definition na_lacuna (lacuna : float * float) (r : float) : bool :=
  (lacuna.1 <? r)%float && (r <? lacuna.2)%float.

(** The items of [obj] that carry the code [c], in their order, and the
    codes of the items of [obj]. *)
Definition itens_de (c : string) (obj : list item) : list item :=
  filter (λ it, item_cnae it = Some c) obj.

Definition codigos (obj : list item) : list string := omap item_cnae obj.

(** A record that is neither a single-annex one nor a Factor R one. *)
Definition info_misto : CNAEInfo :=
  mkCNAEInfo "10.00-0-00" "misto" ["II"; "I"] false "industria".
Definition tabela_mista : gmap string CNAEInfo := {["10.00-0-00" := info_misto]}.

Definition item_comercio : item :=
  mkItem (Some "47.51-2-01") (Some "comercio") (Some ["I"]) (Some (JBool false)) (Some "comercio").

(** The tables the loop builds from some short inputs. *)
Definition tabela_antigo_comercio : gmap string CNAEInfo :=
  <["47.51-2-01" := info_de "47.51-2-01" item_comercio]>
    (<["62.01-5-01" := info_de "62.01-5-01" item_antigo]> ∅).
Definition tabela_novo : gmap string CNAEInfo :=
  <["62.01-5-01" := info_de "62.01-5-01" item_novo]> ∅.
Definition tabela_tres : gmap string CNAEInfo :=
  <["62.01-5-01" := info_de "62.01-5-01" item_novo]> tabela_antigo_comercio.

(** * Properties *)

(** ** The three examples of the source file *)

Example exemplo_1 : obter_exemplo "62.01-5-01" 600000.0 (Some 200000.0%float) = Ok ("III", 3%Z, 0.135%float).
Proof. vm_compute. reflexivity. Qed.

Example exemplo_2 : obter_exemplo "47.51-2-01" 500000.0 None = Ok ("I", 3%Z, 0.095%float).
Proof. vm_compute. reflexivity. Qed.

Example exemplo_3 : obter_exemplo "71.12-0-00" 1200000.0 (Some 100000.0%float) = Ok ("V", 4%Z, 0.205%float).
Proof. vm_compute. reflexivity. Qed.

(** ** The order on binary64 values

    The comparisons of [PrimFloat] are specified on [spec_float]; these are
    the order facts the proofs below need, for all floats (NaN compares
    false with everything, so every hypothesis [_ = true] excludes it). *)

Module FloatOrder.

Ltac order_cases :=
  cbn in *;
  repeat match goal with
  | |- context [PosDef.Pos.compare_cont Eq ?a ?b] =>
      change (PosDef.Pos.compare_cont Eq a b) with (Pos.compare a b) in *
  | H : context [PosDef.Pos.compare_cont Eq ?a ?b] |- _ =>
      change (PosDef.Pos.compare_cont Eq a b) with (Pos.compare a b) in *
  | |- context [IntDef.Z.compare ?a ?b] =>
      change (IntDef.Z.compare a b) with (Z.compare a b) in *
  | H : context [IntDef.Z.compare ?a ?b] |- _ =>
      change (IntDef.Z.compare a b) with (Z.compare a b) in *
  end;
  repeat match goal with
  | |- context [Z.compare ?a ?b] => destruct (Z.compare_spec a b)
  | H : context [Z.compare ?a ?b] |- _ => destruct (Z.compare_spec a b)
  | |- context [Pos.compare ?a ?b] => destruct (Pos.compare_spec a b)
  | H : context [Pos.compare ?a ?b] |- _ => destruct (Pos.compare_spec a b)
  end; cbn in *; try done; try congruence; try lia.

Lemma SFcompare_antisym (x y : spec_float) :
  SFcompare y x = CompOpp <$> SFcompare x y.
Proof.
  destruct x as [[]|[]| |[] m1 e1], y as [[]|[]| |[] m2 e2];
    try reflexivity; order_cases.
Qed.

Lemma SFleb_trans (x y z : spec_float) :
  SFleb x y = true → SFleb y z = true → SFleb x z = true.
Proof.
  unfold SFleb.
  destruct x as [[]|[]| |[] m1 e1], y as [[]|[]| |[] m2 e2], z as [[]|[]| |[] m3 e3];
    try (simpl; congruence); order_cases.
Qed.

Lemma leb_trans (x y z : float) :
  (x <=? y)%float = true → (y <=? z)%float = true → (x <=? z)%float = true.
Proof. rewrite !FloatAxioms.leb_spec. apply SFleb_trans. Qed.

Lemma ltb_leb_false (x y : float) :
  (x <? y)%float = true → (y <=? x)%float = false.
Proof.
  rewrite FloatAxioms.ltb_spec, FloatAxioms.leb_spec. unfold SFltb, SFleb.
  rewrite (SFcompare_antisym (Prim2SF x) (Prim2SF y)).
  destruct (SFcompare (Prim2SF x) (Prim2SF y)) as [[]|]; simpl; congruence.
Qed.

Lemma eqb_leb (x y : float) :
  (x =? y)%float = true → (x <=? y)%float = true.
Proof.
  rewrite FloatAxioms.eqb_spec, FloatAxioms.leb_spec. unfold SFeqb, SFleb.
  destruct (SFcompare (Prim2SF x) (Prim2SF y)) as [[]|]; congruence.
Qed.

Lemma eqb_leb_r (x y : float) :
  (x =? y)%float = true → (y <=? x)%float = true.
Proof.
  rewrite FloatAxioms.eqb_spec, FloatAxioms.leb_spec. unfold SFeqb, SFleb.
  rewrite (SFcompare_antisym (Prim2SF x) (Prim2SF y)).
  destruct (SFcompare (Prim2SF x) (Prim2SF y)) as [[]|]; simpl; congruence.
Qed.

Lemma leb_false_neqb (x y : float) :
  (x <=? y)%float = false → (x =? y)%float = false.
Proof.
  intros H. destruct (x =? y)%float eqn:E; [|done].
  apply eqb_leb in E. congruence.
Qed.

End FloatOrder.

(** ** Bracket resolution *)

Section Faixa.
Import FloatOrder.

Lemma faixa_loop_Ok faixas r f :
  faixa_loop faixas r = Ok f →
  ∃ ini fim, (f, ini, fim) ∈ faixas ∧ na_faixa (f, ini, fim) r = true.
Proof.
  induction faixas as [|[[k ini] fim] rest IH]; simpl; [done|].
  destruct ((ini <=? r)%float && (r <=? fim)%float) eqn:E.
  - intros [= <-]. exists ini, fim. split; [left | exact E].
  - intros H. destruct (IH H) as (i & m & Hin & Hr).
    exists i, m. split; [by right | done].
Qed.

Lemma faixa_loop_Raise faixas r e :
  faixa_loop faixas r = Raise e →
  e = ValueError_fora_do_limite ∧ ∀ linha, linha ∈ faixas → na_faixa linha r = false.
Proof.
  induction faixas as [|[[k ini] fim] rest IH]; simpl.
  - intros [= <-]. split; [done|]. intros linha Hin. by apply elem_of_nil in Hin.
  - destruct ((ini <=? r)%float && (r <=? fim)%float) eqn:E; [done|].
    intros H. destruct (IH H) as [-> Hall]. split; [done|].
    intros linha [->|Hin]%elem_of_cons; [exact E | by apply Hall].
Qed.

(** Every row lies within [0, 4 800 000]. *)
Lemma FAIXAS_dentro linha :
  linha ∈ FAIXAS →
  (0 <=? linha.1.2)%float = true ∧ (linha.2 <=? 4800000)%float = true ∧
  linha.1.1 ∈ BRACKETS.
Proof.
  unfold FAIXAS, BRACKETS. rewrite !elem_of_cons, elem_of_nil.
  intros H. repeat destruct H as [-> | H]; try done;
    (split; [vm_compute; reflexivity | split; [vm_compute; reflexivity | set_solver]]).
Qed.

(** A returned bracket is one of 1..6 and the revenue is in the domain. *)
Lemma faixa_por_rbt12_Ok r f :
  faixa_por_rbt12 r = Ok f →
  f ∈ BRACKETS ∧ (0 <=? r)%float = true ∧ (r <=? 4800000)%float = true.
Proof.
  intros (ini & fim & Hin & Hr)%faixa_loop_Ok.
  destruct (FAIXAS_dentro _ Hin) as (H0 & H1 & Hk). simpl in *.
  apply andb_true_iff in Hr as [Hi Hf].
  split; [done|]. split; eauto using leb_trans.
Qed.

(** The only exception is the [ValueError]. *)
Lemma faixa_por_rbt12_Raise r e :
  faixa_por_rbt12 r = Raise e → e = ValueError_fora_do_limite.
Proof. intros H. by apply faixa_loop_Raise in H as [-> _]. Qed.

(** Below 0 and above 4 800 000 no row matches. *)
Lemma faixa_por_rbt12_abaixo r :
  (r <? 0)%float = true → faixa_por_rbt12 r = Raise ValueError_fora_do_limite.
Proof.
  intros Hr. destruct (faixa_por_rbt12 r) as [f|e] eqn:E.
  - apply faixa_por_rbt12_Ok in E as (_ & H0 & _).
    apply ltb_leb_false in Hr. congruence.
  - by apply faixa_por_rbt12_Raise in E as ->.
Qed.

Lemma faixa_por_rbt12_acima r :
  (4800000 <? r)%float = true → faixa_por_rbt12 r = Raise ValueError_fora_do_limite.
Proof.
  intros Hr. destruct (faixa_por_rbt12 r) as [f|e] eqn:E.
  - apply faixa_por_rbt12_Ok in E as (_ & _ & H1).
    apply ltb_leb_false in Hr. congruence.
  - by apply faixa_por_rbt12_Raise in E as ->.
Qed.

(** No two rows of [FAIXAS] contain the same revenue. *)
Lemma FAIXAS_sem_sobreposicao l1 l2 r :
  l1 ∈ FAIXAS → l2 ∈ FAIXAS →
  na_faixa l1 r = true → na_faixa l2 r = true → l1 = l2.
Proof.
  unfold FAIXAS. rewrite !elem_of_cons, !elem_of_nil.
  intros H1 H2.
  repeat destruct H1 as [-> | H1]; try done;
    repeat destruct H2 as [-> | H2]; try done;
    unfold na_faixa; intros [Hi1 Hf1]%andb_true_iff [Hi2 Hf2]%andb_true_iff;
    first
      [ by pose proof (leb_trans _ _ _ Hi1 Hf2)
      | by pose proof (leb_trans _ _ _ Hi2 Hf1) ].
Qed.

(** [faixa_por_rbt12] returns the bracket of the row the revenue lies in,
    and raises exactly when it lies in none. *)
Lemma faixa_por_rbt12_linha r f ini fim :
  (f, ini, fim) ∈ FAIXAS → na_faixa (f, ini, fim) r = true →
  faixa_por_rbt12 r = Ok f.
Proof.
  intros Hin Hr. destruct (faixa_por_rbt12 r) as [g|e] eqn:E.
  - apply faixa_loop_Ok in E as (i & m & Hin' & Hr').
    by pose proof (FAIXAS_sem_sobreposicao _ _ _ Hin Hin' Hr Hr') as [= -> _ _].
  - apply faixa_loop_Raise in E as [_ Hall]. rewrite (Hall _ Hin) in Hr. done.
Qed.

End Faixa.

(** The boundary values of the table resolve to the adjacent brackets. *)
Example faixa_180000_00 : faixa_por_rbt12 180000.00 = Ok 1%Z.
Proof. vm_compute. reflexivity. Qed.

Example faixa_180000_01 : faixa_por_rbt12 180000.01 = Ok 2%Z.
Proof. vm_compute. reflexivity. Qed.

Example faixa_0 : faixa_por_rbt12 0 = Ok 1%Z.
Proof. vm_compute. reflexivity. Qed.

Example faixa_4800000 : faixa_por_rbt12 4800000 = Ok 6%Z.
Proof. vm_compute. reflexivity. Qed.

(** C1 (fails on the code). The rows of [FAIXAS] leave the revenues strictly
    between one row's upper bound and the next row's lower bound uncovered:
    180000.005 lies in [0, 4 800 000], and [faixa_por_rbt12] returns no
    bracket for it but raises the [ValueError] whose message says the revenue
    is outside 0 to 4.8 million. *)
Theorem faixa_por_rbt12_lacuna :
  (0 <=? 180000.005)%float = true ∧ (180000.005 <=? 4800000)%float = true ∧
  faixa_por_rbt12 180000.005 = Raise ValueError_fora_do_limite.
Proof. vm_compute. done. Qed.

(** C2 (fails on the code). Raising is not equivalent to lying outside
    [0, 4 800 000]: 720000.005 is neither below 0 nor above 4 800 000, and
    [faixa_por_rbt12] raises for it. *)
Theorem faixa_por_rbt12_erro_dentro_do_limite :
  (720000.005 <? 0)%float = false ∧ (4800000 <? 720000.005)%float = false ∧
  faixa_por_rbt12 720000.005 = Raise ValueError_fora_do_limite.
Proof. vm_compute. done. Qed.

(** ** Annex resolution *)

Section Resolver.
Import FloatOrder.

Implicit Types (c : string) (r : float) (folha : option float).
Implicit Types (tabela : gmap string CNAEInfo) (info : CNAEInfo).

(** A non-empty override is returned before anything else is looked at. *)
Lemma resolver_forcado c r folha tabela a :
  a ≠ "" → resolver_anexo_por_cnae c r folha tabela (Some a) = Ok a.
Proof.
  intros Ha. unfold resolver_anexo_por_cnae, str_informado.
  by rewrite bool_decide_eq_false_2.
Qed.

Lemma ANEXOS_informado a : a ∈ ANEXOS → a ≠ "".
Proof.
  unfold ANEXOS. rewrite !elem_of_cons, elem_of_nil.
  intros H. repeat destruct H as [-> | H]; done.
Qed.

(** The unfolding of the function once the code is found, no override. *)
Lemma resolver_na_tabela c r folha tabela info :
  tabela !! c = Some info →
  resolver_anexo_por_cnae c r folha tabela None =
    if (length (anexos info) =? 1)%nat then index0 (anexos info)
    else if bool_decide (list_to_set (anexos info) = III_V) && fator_r info then
      match folha with
      | None => Ok "V"
      | Some p =>
          if (r <=? 0)%float then Ok "V"
          else fator ← truediv p r; Ok (if (0.28 <=? fator)%float then "III" else "V")
      end
    else index0 (anexos info).
Proof. intros H. unfold resolver_anexo_por_cnae. simpl. by rewrite H. Qed.

Lemma resolver_um_anexo c r folha tabela info a :
  tabela !! c = Some info → anexos info = [a] →
  resolver_anexo_por_cnae c r folha tabela None = Ok a.
Proof. intros H Ha. rewrite (resolver_na_tabela _ _ _ _ _ H), Ha. done. Qed.

(** A list whose set is {"III", "V"} has at least two entries. *)
Lemma III_V_length (l : list string) :
  list_to_set l = III_V → (length l =? 1)%nat = false.
Proof.
  intros H. destruct l as [|x [|y l]]; try done.
  assert (HIII : "III" ∈ III_V) by (unfold III_V; set_solver).
  assert (HV : "V" ∈ III_V) by (unfold III_V; set_solver).
  rewrite <- H in HIII, HV. clear H.
  apply elem_of_list_to_set, list_elem_of_singleton in HIII, HV. congruence.
Qed.

(** With a revenue that is not [<= 0] the quotient is computed, and it is
    the binary64 quotient. *)
Lemma truediv_positivo p r :
  (r <=? 0)%float = false → truediv p r = Ok (p / r)%float.
Proof. intros H. unfold truediv. by rewrite (leb_false_neqb _ _ H). Qed.

(** The Factor R branch, as one equation. *)
Lemma resolver_fator_r_eq c r folha tabela info :
  tabela !! c = Some info →
  list_to_set (anexos info) = III_V →
  fator_r info = true →
  resolver_anexo_por_cnae c r folha tabela None =
    match folha with
    | None => Ok "V"
    | Some p =>
        if (r <=? 0)%float then Ok "V"
        else Ok (if (0.28 <=? p / r)%float then "III" else "V")
    end.
Proof.
  intros H Hset Hfr. rewrite (resolver_na_tabela _ _ _ _ _ H).
  rewrite (III_V_length _ Hset), bool_decide_eq_true_2, Hfr by done. simpl.
  destruct folha as [p|]; [|done].
  destruct (r <=? 0)%float eqn:Hr; [done|].
  by rewrite (truediv_positivo _ _ Hr).
Qed.

End Resolver.

(** C4. With an explicit override [a] (one of the five annexes) the override
    is returned as it is, for every code (in the table or not), revenue,
    payroll and table: the table is not consulted. *)
Theorem resolver_anexo_forcado
    (c : string) (r : float) (folha : option float)
    (tabela : gmap string CNAEInfo) (a : string) :
  a ∈ ANEXOS → resolver_anexo_por_cnae c r folha tabela (Some a) = Ok a.
Proof. intros Ha. apply resolver_forcado. by apply ANEXOS_informado. Qed.

Lemma resolver_anexo_forcado_witness :
  "IV" ∈ ANEXOS ∧
  resolver_anexo_por_cnae "00.00-0-00" 500000 None ∅ (Some "IV") = Ok "IV".
Proof.
  split.
  - unfold ANEXOS. set_solver.
  - apply (resolver_anexo_forcado "00.00-0-00" 500000 None ∅ "IV").
    unfold ANEXOS. set_solver.
Defined.

(** The override is tested by truthiness: an empty string counts as no
    override, and the table decides. *)
Example forcado_vazio :
  resolver_anexo_por_cnae "47.51-2-01" 500000 None tabela_comercio (Some "") = Ok "I".
Proof. vm_compute. reflexivity. Qed.

(** C7. For a record with exactly one candidate annex, and no override, that
    annex is returned whatever the revenue and the payroll are. *)
Theorem resolver_anexo_unico
    (c : string) (tabela : gmap string CNAEInfo) (info : CNAEInfo) (a : string) :
  tabela !! c = Some info → anexos info = [a] →
  ∀ (r : float) (folha : option float),
    resolver_anexo_por_cnae c r folha tabela None = Ok a.
Proof. intros H Ha r folha. by apply (resolver_um_anexo _ _ _ _ info). Qed.

(** C3. For a record whose candidate set is {"III", "V"} with the Factor R
    flag set, and no override: without a payroll, or with revenue <= 0, the
    result is "V" and nothing is raised; otherwise the quotient
    payroll / revenue is computed without error and the result is "III" when
    it is >= 0.28 (equality included) and "V" when it is < 0.28. *)
Theorem resolver_anexo_fator_r
    (c : string) (r : float) (folha : option float)
    (tabela : gmap string CNAEInfo) (info : CNAEInfo) :
  tabela !! c = Some info →
  list_to_set (anexos info) = III_V →
  fator_r info = true →
  (folha = None ∨ (r <=? 0)%float = true →
     resolver_anexo_por_cnae c r folha tabela None = Ok "V") ∧
  (∀ p, folha = Some p → (r <=? 0)%float = false →
     truediv p r = Ok (p / r)%float ∧
     ((0.28 <=? p / r)%float = true →
        resolver_anexo_por_cnae c r folha tabela None = Ok "III") ∧
     ((p / r =? 0.28)%float = true →
        resolver_anexo_por_cnae c r folha tabela None = Ok "III") ∧
     ((p / r <? 0.28)%float = true →
        resolver_anexo_por_cnae c r folha tabela None = Ok "V")).
Proof.
  intros H Hset Hfr.
  rewrite (resolver_fator_r_eq _ _ _ _ _ H Hset Hfr). split.
  - intros [-> | Hr]; [done|]. destruct folha; by rewrite ?Hr.
  - intros p -> Hr. rewrite Hr. split; [by apply truediv_positivo|].
    split; [by intros ->|]. split.
    + intros Heq. by rewrite (FloatOrder.eqb_leb_r _ _ Heq).
    + intros Hlt. by rewrite (FloatOrder.ltb_leb_false _ _ Hlt).
Qed.

Lemma resolver_anexo_fator_r_witness :
  tabela_software !! "62.01-5-01" = Some info_software ∧
  list_to_set (anexos info_software) = III_V ∧
  fator_r info_software = true ∧
  resolver_anexo_por_cnae "62.01-5-01" 100 (Some 28%float) tabela_software None = Ok "III".
Proof.
  assert (H1 : tabela_software !! "62.01-5-01" = Some info_software)
    by (vm_compute; reflexivity).
  assert (H2 : list_to_set (anexos info_software) = III_V)
    by (vm_compute; reflexivity).
  assert (H3 : fator_r info_software = true) by reflexivity.
  split; [exact H1|]. split; [exact H2|]. split; [exact H3|].
  destruct (resolver_anexo_fator_r "62.01-5-01" 100 (Some 28%float)
              tabela_software info_software H1 H2 H3) as [_ Hrazao].
  destruct (Hrazao 28%float eq_refl) as (_ & Hge & _).
  - vm_compute; reflexivity.
  - apply Hge. vm_compute; reflexivity.
Defined.

Lemma resolver_anexo_unico_witness :
  tabela_comercio !! "47.51-2-01" = Some info_comercio ∧
  anexos info_comercio = ["I"] ∧
  resolver_anexo_por_cnae "47.51-2-01" 500000 None tabela_comercio None = Ok "I".
Proof.
  assert (H1 : tabela_comercio !! "47.51-2-01" = Some info_comercio)
    by (vm_compute; reflexivity).
  split; [exact H1|]. split; [reflexivity|].
  exact (resolver_anexo_unico "47.51-2-01" tabela_comercio info_comercio "I"
           H1 eq_refl 500000%float None).
Defined.

(** The thresholds of the Factor R rule on the one-row table. *)
Example fator_r_0_28 :
  resolver_anexo_por_cnae "62.01-5-01" 1 (Some 0.28%float) tabela_software None = Ok "III".
Proof. vm_compute. reflexivity. Qed.

Example fator_r_0_2799 :
  resolver_anexo_por_cnae "62.01-5-01" 1 (Some 0.2799%float) tabela_software None = Ok "V".
Proof. vm_compute. reflexivity. Qed.

Example fator_r_sem_folha :
  resolver_anexo_por_cnae "62.01-5-01" 600000 None tabela_software None = Ok "V".
Proof. vm_compute. reflexivity. Qed.

Example fator_r_receita_zero :
  resolver_anexo_por_cnae "62.01-5-01" 0 (Some 200000%float) tabela_software None = Ok "V".
Proof. vm_compute. reflexivity. Qed.

(** C10. A record without the "anexos" key is accepted by the table builder
    with an empty candidate list, and for a record with an empty candidate
    list, and no override, [resolver_anexo_por_cnae] returns no annex: the
    final [info.anexos[0]] raises [IndexError], which is none of the
    [ValueError] and [KeyError]s the module raises itself. *)
Theorem resolver_anexo_sem_candidatos :
  (∀ (it : item) (c : string),
     item_cnae it = Some c → item_anexos it = None →
     ∃ t info, carregar_tabela_cnae [it] = Ok t ∧ t !! c = Some info ∧ anexos info = []) ∧
  (∀ (c : string) (r : float) (folha : option float)
     (tabela : gmap string CNAEInfo) (info : CNAEInfo),
     tabela !! c = Some info → anexos info = [] →
     resolver_anexo_por_cnae c r folha tabela None = Raise IndexError_list ∧
     (∀ a, resolver_anexo_por_cnae c r folha tabela None ≠ Ok a) ∧
     (∀ e, resolver_anexo_por_cnae c r folha tabela None = Raise e →
           class_of e ≠ ValueError ∧ class_of e ≠ KeyError)).
Proof.
  split.
  - intros it c Hc Ha. exists {[c := info_de c it]}, (info_de c it).
    unfold carregar_tabela_cnae. simpl. rewrite Hc.
    split; [by rewrite insert_empty|].
    split; [apply lookup_singleton_eq|].
    unfold info_de. simpl. by rewrite Ha.
  - intros c r folha tabela info H Ha.
    rewrite (resolver_na_tabela _ _ _ _ _ H), Ha. simpl.
    split; [done|]. split; [done|]. by intros e [= <-].
Qed.

Lemma resolver_anexo_sem_candidatos_witness :
  item_cnae item_sem_anexos = Some "99.99-9-99" ∧
  item_anexos item_sem_anexos = None ∧
  (t ← carregar_tabela_cnae [item_sem_anexos];
   resolver_anexo_por_cnae "99.99-9-99" 500000 None t None) = Raise IndexError_list.
Proof.
  split; [reflexivity|]. split; [reflexivity|].
  destruct resolver_anexo_sem_candidatos as [Hcarga Hres].
  destruct (Hcarga item_sem_anexos "99.99-9-99" eq_refl eq_refl)
    as (t & info & -> & Ht & Ha).
  exact (proj1 (Hres "99.99-9-99" 500000%float None t info Ht Ha)).
Defined.

(** ** Nominal rate *)

Section Aliquota.

Lemma aliquota_de_em_0_1 a f :
  a ∈ ANEXOS → f ∈ BRACKETS → em_0_1 (aliquota_de a f) = true.
Proof.
  unfold ANEXOS, BRACKETS. rewrite !elem_of_cons, !elem_of_nil.
  intros Ha Hf.
  repeat destruct Ha as [-> | Ha]; try done;
    repeat destruct Hf as [-> | Hf]; try done;
    vm_compute; reflexivity.
Qed.

Lemma aliquota_de_Some a f :
  a ∈ ANEXOS → f ∈ BRACKETS →
  ∃ x, aliquota_de a f = Some x ∧ (0 <=? x)%float = true ∧ (x <? 1)%float = true.
Proof.
  intros Ha Hf. pose proof (aliquota_de_em_0_1 a f Ha Hf) as H.
  destruct (aliquota_de a f) as [x|]; [|done].
  exists x. by apply andb_true_iff in H.
Qed.

Lemma aliquota_nominal_eq a r :
  aliquota_nominal_por_anexo a r =
    f ← faixa_por_rbt12 r;
    match aliquota_de a f with
    | Some x => Ok (f, x)
    | None => Raise (KeyError_aliquota a f)
    end.
Proof. reflexivity. Qed.

Lemma truediv_12 r : truediv r 12 = Ok (r / 12)%float.
Proof. reflexivity. Qed.

Lemma obter_aliquota_eq c r folha tabela forcado :
  obter_aliquota_por_cnae c r folha tabela forcado =
    a ← resolver_anexo_por_cnae c r folha tabela forcado;
    fx ← aliquota_nominal_por_anexo a r;
    Ok (mkResultado a fx.1 fx.2 (fx.2 * 100)%float r (r / 12)%float).
Proof.
  unfold obter_aliquota_por_cnae.
  destruct (resolver_anexo_por_cnae c r folha tabela forcado) as [a|e]; [|done].
  simpl. by destruct (aliquota_nominal_por_anexo a r) as [[f x]|e].
Qed.

End Aliquota.

(** C5. [ALIQUOTAS_NOMINAIS] holds a rate in [0, 1) for each of the five
    annexes and each of the six brackets, and nothing else (5 x 6 = 30
    entries); so for a valid annex, whenever [faixa_por_rbt12] returns a
    bracket, [aliquota_nominal_por_anexo] returns that bracket with its rate,
    and the only exception it can raise is the bracket's [ValueError], never
    the [KeyError] of its [except] branch. *)
Theorem aliquotas_nominais_completa :
  (∀ a f, a ∈ ANEXOS → f ∈ BRACKETS →
     ∃ x, ALIQUOTAS_NOMINAIS !! a ≫= (.!! f) = Some x ∧
          (0 <=? x)%float = true ∧ (x <? 1)%float = true) ∧
  (dom ALIQUOTAS_NOMINAIS = list_to_set ANEXOS ∧
   map_Forall (λ _ m, dom m = list_to_set BRACKETS) ALIQUOTAS_NOMINAIS) ∧
  (∀ a r, a ∈ ANEXOS →
     (∀ f, faixa_por_rbt12 r = Ok f →
        ∃ x, aliquota_nominal_por_anexo a r = Ok (f, x) ∧
             ALIQUOTAS_NOMINAIS !! a ≫= (.!! f) = Some x) ∧
     (∀ e, aliquota_nominal_por_anexo a r = Raise e →
        e = ValueError_fora_do_limite ∧ ∀ f, e ≠ KeyError_aliquota a f)).
Proof.
  split; [exact aliquota_de_Some|]. split.
  - split; [vm_compute; reflexivity|].
    apply (bool_decide_unpack _). vm_compute. exact I.
  - intros a r Ha. rewrite aliquota_nominal_eq. split.
    + intros f Hf. rewrite Hf. simpl.
      destruct (faixa_por_rbt12_Ok _ _ Hf) as [Hb _].
      destruct (aliquota_de_Some a f Ha Hb) as (x & Hx & _).
      exists x. by rewrite Hx.
    + intros e. destruct (faixa_por_rbt12 r) as [f|e'] eqn:Hf; simpl.
      * destruct (faixa_por_rbt12_Ok _ _ Hf) as [Hb _].
        destruct (aliquota_de_Some a f Ha Hb) as (x & Hx & _).
        by rewrite Hx.
      * intros [= <-]. by rewrite (faixa_por_rbt12_Raise _ _ Hf).
Qed.

Lemma aliquotas_nominais_completa_witness :
  "III" ∈ ANEXOS ∧ faixa_por_rbt12 600000 = Ok 3%Z ∧
  aliquota_nominal_por_anexo "III" 600000 = Ok (3%Z, 0.135%float).
Proof.
  assert (Ha : "III" ∈ ANEXOS) by (unfold ANEXOS; set_solver).
  assert (Hf : faixa_por_rbt12 600000 = Ok 3%Z) by (vm_compute; reflexivity).
  split; [exact Ha|]. split; [exact Hf|].
  destruct aliquotas_nominais_completa as (_ & _ & H).
  destruct (H "III" 600000%float Ha) as [Hok _].
  destruct (Hok 3%Z Hf) as (x & -> & Hx).
  vm_compute in Hx. by injection Hx as <-.
Defined.

(** C6. For a code whose record has a single candidate annex [a], and no
    override, the bracket and rate that [obter_aliquota_por_cnae] returns are
    those of composing [faixa_por_rbt12] on the revenue with the lookup
    [ALIQUOTAS_NOMINAIS[a][faixa]] by hand, for every revenue and payroll
    (and it returns nothing exactly when that composition yields nothing). *)
Theorem obter_aliquota_anexo_unico
    (c : string) (r : float) (folha : option float)
    (tabela : gmap string CNAEInfo) (info : CNAEInfo) (a : string) :
  tabela !! c = Some info → anexos info = [a] →
  (λ res, (faixa res, aliquota_nominal res))
    <$> returned (obter_aliquota_por_cnae c r folha tabela None)
  = (f ← returned (faixa_por_rbt12 r);
     x ← ALIQUOTAS_NOMINAIS !! a ≫= (.!! f);
     Some (f, x)).
Proof.
  intros H Ha.
  rewrite obter_aliquota_eq, (resolver_um_anexo _ _ _ _ _ _ H Ha). simpl.
  rewrite aliquota_nominal_eq. fold (aliquota_de a).
  destruct (faixa_por_rbt12 r) as [f|e]; simpl; [|done].
  fold (aliquota_de a f). by destruct (aliquota_de a f).
Qed.

Lemma obter_aliquota_anexo_unico_witness :
  tabela_comercio !! "47.51-2-01" = Some info_comercio ∧
  anexos info_comercio = ["I"] ∧
  (λ res, (faixa res, aliquota_nominal res))
    <$> returned (obter_aliquota_por_cnae "47.51-2-01" 500000 None tabela_comercio None)
  = Some (3%Z, 0.095%float).
Proof.
  assert (H1 : tabela_comercio !! "47.51-2-01" = Some info_comercio)
    by (vm_compute; reflexivity).
  split; [exact H1|]. split; [reflexivity|].
  rewrite (obter_aliquota_anexo_unico "47.51-2-01" 500000 None
             tabela_comercio info_comercio "I" H1 eq_refl).
  vm_compute. reflexivity.
Defined.

(** C9. Whenever [obter_aliquota_por_cnae] returns, in the result the
    percentage is the rate times 100, the average monthly revenue is the
    input revenue divided by 12, and the revenue is the input revenue. *)
Theorem obter_aliquota_campos
    (c : string) (r : float) (folha : option float)
    (tabela : gmap string CNAEInfo) (forcado : option string) (res : Resultado) :
  obter_aliquota_por_cnae c r folha tabela forcado = Ok res →
  aliquota_nominal_pct res = (aliquota_nominal res * 100)%float ∧
  faturamento_mensal_medio res = (r / 12)%float ∧
  rbt12 res = r.
Proof.
  rewrite obter_aliquota_eq.
  destruct (resolver_anexo_por_cnae c r folha tabela forcado) as [a|e]; simpl; [|done].
  destruct (aliquota_nominal_por_anexo a r) as [[f x]|e]; simpl; [|done].
  by intros [= <-].
Qed.

Lemma obter_aliquota_campos_witness :
  ∃ res,
    obter_aliquota_por_cnae "47.51-2-01" 500000 None tabela_comercio None = Ok res ∧
    aliquota_nominal_pct res = (0.095 * 100)%float ∧
    faturamento_mensal_medio res = (500000 / 12)%float ∧
    rbt12 res = 500000%float.
Proof.
  exists (mkResultado "I" 3 0.095 (0.095 * 100) 500000 (500000 / 12)).
  assert (H : obter_aliquota_por_cnae "47.51-2-01" 500000 None tabela_comercio None
              = Ok (mkResultado "I" 3 0.095 (0.095 * 100) 500000 (500000 / 12)))
    by (vm_compute; reflexivity).
  split; [exact H|].
  exact (obter_aliquota_campos "47.51-2-01" 500000 None tabela_comercio None _ H).
Defined.

(** ** Building the table *)

Section Carga.

Implicit Types (obj : list item) (t : gmap string CNAEInfo).

Lemma carregar_loop_app obj1 obj2 t :
  carregar_loop (obj1 ++ obj2) t = carregar_loop obj1 t ≫= carregar_loop obj2.
Proof.
  revert t. induction obj1 as [|it obj1 IH]; intros t; simpl; [done|].
  destruct (item_cnae it); [apply IH | done].
Qed.

(** The load succeeds when every item has its "cnae" key. *)
Lemma carregar_loop_Ok obj t :
  Forall (λ it, is_Some (item_cnae it)) obj → ∃ t', carregar_loop obj t = Ok t'.
Proof.
  intros H. revert t. induction H as [|it obj [c Hc] _ IH]; intros t; simpl.
  - by exists t.
  - rewrite Hc. apply IH.
Qed.

(** Items with other codes leave the entry of [c] alone. *)
Lemma carregar_loop_outros obj t t' c :
  carregar_loop obj t = Ok t' →
  Forall (λ it, item_cnae it ≠ Some c) obj →
  t' !! c = t !! c.
Proof.
  intros Hl H. revert t Hl. induction H as [|it obj Hc _ IH]; intros t; simpl.
  - by intros [= ->].
  - destruct (item_cnae it) as [k|] eqn:Hk; [|done].
    intros Hl. rewrite (IH _ Hl). apply lookup_insert_ne. congruence.
Qed.

(** After the items up to and including [b], the entry of its code is the
    record built from [b]. *)
Lemma carregar_loop_ultimo obj b post t c :
  item_cnae b = Some c →
  Forall (λ it, is_Some (item_cnae it)) (obj ++ post) →
  Forall (λ it, item_cnae it ≠ Some c) post →
  ∃ t', carregar_loop (obj ++ b :: post) t = Ok t' ∧ t' !! c = Some (info_de c b).
Proof.
  intros Hb [Hobj Hpost]%Forall_app Hne.
  rewrite carregar_loop_app.
  destruct (carregar_loop_Ok obj t Hobj) as [t1 ->]. simpl. rewrite Hb.
  destruct (carregar_loop_Ok post (<[c := info_de c b]> t1) Hpost) as [t2 Ht2].
  exists t2. split; [done|].
  rewrite (carregar_loop_outros _ _ _ _ Ht2 Hne). apply lookup_insert_eq.
Qed.

End Carga.

(** C8. When the input sequence holds two records [a] and (later) [b] with
    the same code [c], and no record after [b] has that code, the built table
    maps [c] to the record made from [b] alone: description, candidate
    annexes, Factor R flag and classification are those of [b] (with the
    defaults for the keys [b] lacks), whatever [a] held. *)
Theorem carregar_tabela_cnae_ultimo_vence
    (pre mid post : list item) (a b : item) (c : string) :
  item_cnae a = Some c → item_cnae b = Some c →
  Forall (λ it, is_Some (item_cnae it)) (pre ++ mid ++ post) →
  Forall (λ it, item_cnae it ≠ Some c) post →
  ∃ t info,
    carregar_tabela_cnae (pre ++ a :: mid ++ b :: post) = Ok t ∧
    t !! c = Some info ∧
    cnae info = c ∧
    descricao info = default "" (item_descricao b) ∧
    anexos info = default [] (item_anexos b) ∧
    fator_r info = bool_of (default (JBool false) (item_fator_r b)) ∧
    natureza info = default "servicos" (item_natureza b).
Proof.
  intros Ha Hb Hall Hne.
  destruct (carregar_loop_ultimo (pre ++ a :: mid) b post ∅ c Hb) as (t & Ht & Hc).
  - rewrite <- !app_assoc. simpl.
    apply Forall_app in Hall as [Hpre Hrest].
    apply Forall_app. split; [done|]. constructor; [by rewrite Ha|done].
  - done.
  - exists t, (info_de c b). unfold carregar_tabela_cnae.
    rewrite <- app_assoc in Ht. simpl in Ht. by rewrite Ht.
Qed.

Lemma carregar_tabela_cnae_ultimo_vence_witness :
  item_cnae item_antigo = Some "62.01-5-01" ∧
  item_cnae item_novo = Some "62.01-5-01" ∧
  ∃ t, carregar_tabela_cnae [item_antigo; item_novo] = Ok t ∧
       t !! "62.01-5-01" = Some (mkCNAEInfo "62.01-5-01" "novo" ["III"; "V"] true "servicos").
Proof.
  split; [reflexivity|]. split; [reflexivity|].
  destruct (carregar_tabela_cnae_ultimo_vence [] [] [] item_antigo item_novo
              "62.01-5-01" eq_refl eq_refl (Forall_nil_2 _) (Forall_nil_2 _))
    as (t & info & Ht & Hinfo & H1 & H2 & H3 & H4 & H5).
  exists t. split; [exact Ht|].
  rewrite Hinfo. destruct info; simpl in *. by subst.
Defined.


(** * Further properties of the code *)

(** ** [faixa_por_rbt12] *)

(** X1. A revenue that is not within 0 <= r <= 4 800 000 (below, above, or
    NaN, which compares false with both limits) gets no bracket:
    [faixa_por_rbt12] raises its [ValueError]. *)
Theorem faixa_por_rbt12_fora_do_limite (r : float) :
  no_limite r = false → faixa_por_rbt12 r = Raise ValueError_fora_do_limite.
Proof.
  intros Hr. destruct (faixa_por_rbt12 r) as [f|e] eqn:E.
  - apply faixa_por_rbt12_Ok in E as (_ & H0 & H1).
    unfold no_limite in Hr. by rewrite H0, H1 in Hr.
  - by apply faixa_por_rbt12_Raise in E as ->.
Qed.

Lemma faixa_por_rbt12_fora_do_limite_witness :
  no_limite nan = false ∧ faixa_por_rbt12 nan = Raise ValueError_fora_do_limite.
Proof.
  split; [vm_compute; reflexivity|].
  apply (faixa_por_rbt12_fora_do_limite nan). vm_compute; reflexivity.
Defined.

(** X2. [faixa_por_rbt12] returns the bracket [f] exactly when the revenue
    lies within the bounds of the row of [FAIXAS] numbered [f]; the first
    match of the scan is the only one. *)
Theorem faixa_por_rbt12_sse_linha (r : float) (f : Z) :
  faixa_por_rbt12 r = Ok f ↔
  ∃ ini fim, (f, ini, fim) ∈ FAIXAS ∧
             (ini <=? r)%float = true ∧ (r <=? fim)%float = true.
Proof.
  split.
  - intros (ini & fim & Hin & Hr)%faixa_loop_Ok.
    exists ini, fim. by apply andb_true_iff in Hr.
  - intros (ini & fim & Hin & Hi & Hf).
    apply (faixa_por_rbt12_linha r f ini fim Hin).
    unfold na_faixa. by rewrite Hi, Hf.
Qed.

Lemma faixa_por_rbt12_sse_linha_witness : faixa_por_rbt12 500000 = Ok 3%Z.
Proof.
  apply (proj2 (faixa_por_rbt12_sse_linha 500000 3)).
  exists 360000.01%float, 720000.00%float.
  split; [unfold FAIXAS; set_solver|].
  split; vm_compute; reflexivity.
Defined.

(** The rows of [FAIXAS] are in ascending order: a row that starts at or
    below the end of another does not have a higher number. *)
Lemma FAIXAS_ordenadas f1 i1 m1 f2 i2 m2 :
  (f1, i1, m1) ∈ FAIXAS → (f2, i2, m2) ∈ FAIXAS →
  (i1 <=? m2)%float = true → (f1 ≤ f2)%Z.
Proof.
  unfold FAIXAS. rewrite !elem_of_cons, !elem_of_nil.
  intros H1 H2.
  repeat destruct H1 as [[= -> -> _] | H1]; try done;
    repeat destruct H2 as [[= -> _ ->] | H2]; try done;
    vm_compute; first [ discriminate | intros _; discriminate ].
Qed.

Lemma faixa_por_rbt12_mono r1 r2 f1 f2 :
  (r1 <=? r2)%float = true →
  faixa_por_rbt12 r1 = Ok f1 → faixa_por_rbt12 r2 = Ok f2 → (f1 ≤ f2)%Z.
Proof.
  intros Hr (i1 & m1 & Hin1 & [Hi1 _]%andb_true_iff)%faixa_loop_Ok
            (i2 & m2 & Hin2 & [_ Hm2]%andb_true_iff)%faixa_loop_Ok.
  apply (FAIXAS_ordenadas _ _ _ _ _ _ Hin1 Hin2).
  exact (FloatOrder.leb_trans _ _ _ (FloatOrder.leb_trans _ _ _ Hi1 Hr) Hm2).
Qed.

(** X3. Brackets grow with revenue: when both revenues get a bracket, the
    larger revenue gets a bracket that is at least as high. *)
Theorem faixa_por_rbt12_crescente (r1 r2 : float) (f1 f2 : Z) :
  (r1 <=? r2)%float = true →
  faixa_por_rbt12 r1 = Ok f1 → faixa_por_rbt12 r2 = Ok f2 → (f1 ≤ f2)%Z.
Proof. apply faixa_por_rbt12_mono. Qed.

Lemma faixa_por_rbt12_crescente_witness :
  (100000 <=? 500000)%float = true ∧
  faixa_por_rbt12 100000 = Ok 1%Z ∧ faixa_por_rbt12 500000 = Ok 3%Z ∧ (1 ≤ 3)%Z.
Proof.
  assert (H1 : (100000 <=? 500000)%float = true) by (vm_compute; reflexivity).
  assert (H2 : faixa_por_rbt12 100000 = Ok 1%Z) by (vm_compute; reflexivity).
  assert (H3 : faixa_por_rbt12 500000 = Ok 3%Z) by (vm_compute; reflexivity).
  split; [exact H1|]. split; [exact H2|]. split; [exact H3|].
  exact (faixa_por_rbt12_crescente 100000 500000 1 3 H1 H2 H3).
Defined.

(** ** [ALIQUOTAS_NOMINAIS] and [aliquota_nominal_por_anexo] *)

Section MaisAliquota.

(** Only the five annexes and the six brackets have a rate. *)
Lemma aliquota_de_inv a f x :
  aliquota_de a f = Some x → a ∈ ANEXOS ∧ f ∈ BRACKETS.
Proof.
  unfold aliquota_de. destruct (ALIQUOTAS_NOMINAIS !! a) as [m|] eqn:Hm; [|done].
  simpl. intros Hf.
  assert (Ha : a ∈ ANEXOS).
  { apply (elem_of_list_to_set (C := gset string)).
    replace (list_to_set ANEXOS : gset string) with (dom ALIQUOTAS_NOMINAIS)
      by (vm_compute; reflexivity).
    by apply elem_of_dom_2 in Hm. }
  split; [done|].
  apply (elem_of_list_to_set (C := gset Z)).
  apply elem_of_dom_2 in Hf.
  revert Ha Hm Hf. unfold ANEXOS. rewrite !elem_of_cons, !elem_of_nil.
  intros Ha.
  repeat destruct Ha as [-> | Ha]; try done;
    (intros Hm; vm_compute in Hm; injection Hm as <-;
     intros Hf; vm_compute; vm_compute in Hf; exact Hf).
Qed.

Lemma aliquota_de_None a f : a ∉ ANEXOS → aliquota_de a f = None.
Proof.
  intros Ha. destruct (aliquota_de a f) as [x|] eqn:E; [|done].
  by apply aliquota_de_inv in E as [? _].
Qed.

(** Within an annex the rates do not decrease from a bracket to a higher
    one. *)
Lemma aliquota_de_crescente a f1 f2 :
  a ∈ ANEXOS → f1 ∈ BRACKETS → f2 ∈ BRACKETS → (f1 ≤ f2)%Z →
  match aliquota_de a f1, aliquota_de a f2 with
  | Some x1, Some x2 => (x1 <=? x2)%float
  | _, _ => false
  end = true.
Proof.
  unfold ANEXOS, BRACKETS. rewrite !elem_of_cons, !elem_of_nil.
  intros Ha H1 H2.
  repeat destruct Ha as [-> | Ha]; try done;
    repeat destruct H1 as [-> | H1]; try done;
    repeat destruct H2 as [-> | H2]; try done;
    intros Hle; first [ lia | vm_compute; reflexivity ].
Qed.

Lemma aliquota_nominal_Ok a r f x :
  aliquota_nominal_por_anexo a r = Ok (f, x) ↔
  faixa_por_rbt12 r = Ok f ∧ aliquota_de a f = Some x.
Proof.
  rewrite aliquota_nominal_eq.
  destruct (faixa_por_rbt12 r) as [g|e]; simpl.
  - destruct (aliquota_de a g) as [y|] eqn:E.
    + split; [by intros [= <- <-]|].
      intros [[= <-] Hx]. rewrite E in Hx. by injection Hx as <-.
    + split; [done|]. intros [[= <-] Hx]. congruence.
  - split; [done | by intros [? _]].
Qed.

End MaisAliquota.

(** X4. For one annex, a larger revenue never gets a lower nominal rate:
    when [aliquota_nominal_por_anexo] returns for both revenues, bracket and
    rate of the larger revenue are at least those of the smaller one. *)
Theorem aliquota_nominal_crescente (a : string) (r1 r2 : float) (f1 f2 : Z) (x1 x2 : float) :
  (r1 <=? r2)%float = true →
  aliquota_nominal_por_anexo a r1 = Ok (f1, x1) →
  aliquota_nominal_por_anexo a r2 = Ok (f2, x2) →
  (f1 ≤ f2)%Z ∧ (x1 <=? x2)%float = true.
Proof.
  intros Hr [Hf1 Hx1]%aliquota_nominal_Ok [Hf2 Hx2]%aliquota_nominal_Ok.
  pose proof (faixa_por_rbt12_mono _ _ _ _ Hr Hf1 Hf2) as Hle.
  split; [done|].
  destruct (aliquota_de_inv _ _ _ Hx1) as [Ha Hb1].
  destruct (aliquota_de_inv _ _ _ Hx2) as [_ Hb2].
  pose proof (aliquota_de_crescente a f1 f2 Ha Hb1 Hb2 Hle) as H.
  by rewrite Hx1, Hx2 in H.
Qed.

Lemma aliquota_nominal_crescente_witness :
  (100000 <=? 500000)%float = true ∧
  aliquota_nominal_por_anexo "III" 100000 = Ok (1%Z, 0.060%float) ∧
  aliquota_nominal_por_anexo "III" 500000 = Ok (3%Z, 0.135%float) ∧
  (1 ≤ 3)%Z ∧ (0.060 <=? 0.135)%float = true.
Proof.
  assert (H1 : (100000 <=? 500000)%float = true) by (vm_compute; reflexivity).
  assert (H2 : aliquota_nominal_por_anexo "III" 100000 = Ok (1%Z, 0.060%float))
    by (vm_compute; reflexivity).
  assert (H3 : aliquota_nominal_por_anexo "III" 500000 = Ok (3%Z, 0.135%float))
    by (vm_compute; reflexivity).
  split; [exact H1|]. split; [exact H2|]. split; [exact H3|].
  exact (aliquota_nominal_crescente "III" 100000 500000 1 3 0.060 0.135 H1 H2 H3).
Defined.

(** X5. The [KeyError] of the [except] branch is raised exactly for an annex
    that is none of "I".."V" and a revenue that has a bracket; it names that
    annex and that bracket. *)
Theorem aliquota_nominal_KeyError (a a' : string) (r : float) (f : Z) :
  aliquota_nominal_por_anexo a r = Raise (KeyError_aliquota a' f) ↔
  a' = a ∧ (a ∉ ANEXOS) ∧ faixa_por_rbt12 r = Ok f.
Proof.
  rewrite aliquota_nominal_eq. split.
  - destruct (faixa_por_rbt12 r) as [g|e] eqn:Hg; simpl.
    + destruct (aliquota_de a g) as [x|] eqn:E; [done|].
      intros [= <- <-]. split; [done|]. split; [|done].
      intros Ha. destruct (faixa_por_rbt12_Ok _ _ Hg) as [Hb _].
      destruct (aliquota_de_Some a g Ha Hb) as (x & Hx & _). congruence.
    + intros [= ->]. by apply faixa_por_rbt12_Raise in Hg.
  - intros (-> & Ha & ->). simpl. by rewrite (aliquota_de_None _ _ Ha).
Qed.

Lemma aliquota_nominal_KeyError_witness :
  aliquota_nominal_por_anexo "VI" 500000 = Raise (KeyError_aliquota "VI" 3).
Proof.
  apply (proj2 (aliquota_nominal_KeyError "VI" "VI" 500000 3)).
  split; [reflexivity|]. split; [|vm_compute; reflexivity].
  unfold ANEXOS. rewrite !elem_of_cons, elem_of_nil.
  intros H. repeat destruct H as [H | H]; try discriminate H. exact H.
Defined.

(** ** [resolver_anexo_por_cnae] *)

Section MaisResolver.

Implicit Types (c : string) (r : float) (folha : option float).
Implicit Types (tabela : gmap string CNAEInfo) (info : CNAEInfo).

(** An absent or empty override leaves the decision to the table. *)
Lemma resolver_sem_forcado c r folha tabela forcado :
  str_informado forcado = None →
  resolver_anexo_por_cnae c r folha tabela forcado =
  resolver_anexo_por_cnae c r folha tabela None.
Proof. intros H. unfold resolver_anexo_por_cnae. by rewrite H. Qed.

Lemma resolver_com_forcado c r folha tabela forcado a :
  str_informado forcado = Some a →
  resolver_anexo_por_cnae c r folha tabela forcado = Ok a.
Proof. intros H. unfold resolver_anexo_por_cnae. by rewrite H. Qed.

Lemma III_V_membros (l : list string) :
  list_to_set l = III_V → "III" ∈ l ∧ "V" ∈ l.
Proof.
  intros H.
  assert (HIII : "III" ∈ III_V) by (unfold III_V; set_solver).
  assert (HV : "V" ∈ III_V) by (unfold III_V; set_solver).
  rewrite <- H in HIII, HV. by apply elem_of_list_to_set in HIII, HV.
Qed.

(** Without candidates the final [info.anexos[0]] is reached and raises. *)
Lemma resolver_sem_anexos c r folha tabela info :
  tabela !! c = Some info → anexos info = [] →
  resolver_anexo_por_cnae c r folha tabela None = Raise IndexError_list.
Proof.
  intros H Ha. rewrite (resolver_na_tabela _ _ _ _ _ H).
  rewrite (bool_decide_eq_false_2 (list_to_set (anexos info) = III_V)).
  - by rewrite Ha.
  - intros [_ HV]%III_V_membros. rewrite Ha in HV. by apply elem_of_nil in HV.
Qed.

(** With candidates a candidate is returned, whatever the other inputs. *)
Lemma resolver_com_anexos c r folha tabela info :
  tabela !! c = Some info → anexos info ≠ [] →
  ∃ a, resolver_anexo_por_cnae c r folha tabela None = Ok a ∧ a ∈ anexos info.
Proof.
  intros H Hne.
  destruct (bool_decide (list_to_set (anexos info) = III_V) && fator_r info) eqn:E.
  - apply andb_true_iff in E as [Hset%bool_decide_eq_true_1 Hfr].
    rewrite (resolver_fator_r_eq _ _ _ _ _ H Hset Hfr).
    destruct (III_V_membros _ Hset) as [HIII HV].
    destruct folha as [p|]; [|by exists "V"].
    destruct (r <=? 0)%float; [by exists "V"|].
    destruct (0.28 <=? p / r)%float; [by exists "III" | by exists "V"].
  - rewrite (resolver_na_tabela _ _ _ _ _ H), E.
    destruct (anexos info) as [|x l]; [done|]. exists x. simpl.
    split; [by destruct (length l =? 0)%nat | left].
Qed.

(** What an exception of [resolver_anexo_por_cnae] tells. *)
Lemma resolver_Raise_inv c r folha tabela forcado e :
  resolver_anexo_por_cnae c r folha tabela forcado = Raise e →
  str_informado forcado = None ∧
  ((tabela !! c = None ∧ e = KeyError_cnae c) ∨
   (∃ info, tabela !! c = Some info ∧ anexos info = [] ∧ e = IndexError_list)).
Proof.
  destruct (str_informado forcado) as [a|] eqn:Hf.
  { by rewrite (resolver_com_forcado _ _ _ _ _ _ Hf). }
  rewrite (resolver_sem_forcado _ _ _ _ _ Hf). intros He. split; [done|].
  destruct (tabela !! c) as [info|] eqn:Hc.
  - right. exists info. split; [done|].
    destruct (anexos info) as [|x l] eqn:Ha.
    + rewrite (resolver_sem_anexos _ _ _ _ _ Hc Ha) in He. by injection He as <-.
    + destruct (resolver_com_anexos c r folha tabela info Hc) as (a & Hok & _);
        [by rewrite Ha | congruence].
  - left. split; [done|]. unfold resolver_anexo_por_cnae in He. simpl in He.
    rewrite Hc in He. by injection He as <-.
Qed.

(** The table is read at the code only. *)
Lemma resolver_ext c r folha tabela tabela' forcado :
  tabela !! c = tabela' !! c →
  resolver_anexo_por_cnae c r folha tabela forcado =
  resolver_anexo_por_cnae c r folha tabela' forcado.
Proof. intros H. unfold resolver_anexo_por_cnae. by rewrite H. Qed.

End MaisResolver.

(** X6. [resolver_anexo_por_cnae] raises in exactly two situations, both
    without a (non-empty) override: the code is not in the table, and it
    raises the [KeyError] naming the code; or the code's record has an empty
    candidate list, and it raises [IndexError]. In particular the division
    payroll / revenue never raises, whatever the floats are. *)
Theorem resolver_anexo_erros
    (c : string) (r : float) (folha : option float)
    (tabela : gmap string CNAEInfo) (forcado : option string) (e : exn) :
  resolver_anexo_por_cnae c r folha tabela forcado = Raise e ↔
  str_informado forcado = None ∧
  ((tabela !! c = None ∧ e = KeyError_cnae c) ∨
   (∃ info, tabela !! c = Some info ∧ anexos info = [] ∧ e = IndexError_list)).
Proof.
  split; [apply resolver_Raise_inv|].
  intros [Hf [[Hc ->] | (info & Hc & Ha & ->)]];
    rewrite (resolver_sem_forcado _ _ _ _ _ Hf).
  - unfold resolver_anexo_por_cnae. simpl. by rewrite Hc.
  - by apply (resolver_sem_anexos _ _ _ _ info).
Qed.

Lemma resolver_anexo_erros_witness :
  resolver_anexo_por_cnae "00.00-0-00" 0 (Some 1%float) tabela_comercio (Some "")
  = Raise (KeyError_cnae "00.00-0-00").
Proof.
  apply (proj2 (resolver_anexo_erros "00.00-0-00" 0 (Some 1%float) tabela_comercio
                  (Some "") (KeyError_cnae "00.00-0-00"))).
  split; [reflexivity|]. left. split; [vm_compute; reflexivity | reflexivity].
Defined.

(** X7. Without an override, an annex that [resolver_anexo_por_cnae] returns
    is always one of the candidates stored for the code (also on the Factor R
    path, where "III" or "V" is returned as a literal). *)
Theorem resolver_anexo_entre_candidatos
    (c : string) (r : float) (folha : option float)
    (tabela : gmap string CNAEInfo) (a : string) :
  resolver_anexo_por_cnae c r folha tabela None = Ok a →
  ∃ info, tabela !! c = Some info ∧ a ∈ anexos info.
Proof.
  intros Hok. destruct (tabela !! c) as [info|] eqn:Hc.
  - exists info. split; [done|].
    destruct (anexos info) as [|x l] eqn:Ha.
    + rewrite (resolver_sem_anexos _ _ _ _ _ Hc Ha) in Hok. done.
    + destruct (resolver_com_anexos c r folha tabela info Hc) as (b & Hb & Hin);
        [by rewrite Ha|].
      rewrite Ha in Hin. congruence.
  - unfold resolver_anexo_por_cnae in Hok. simpl in Hok. by rewrite Hc in Hok.
Qed.

Lemma resolver_anexo_entre_candidatos_witness :
  resolver_anexo_por_cnae "62.01-5-01" 600000 (Some 200000%float) tabela_software None
    = Ok "III" ∧
  ∃ info, tabela_software !! "62.01-5-01" = Some info ∧ "III" ∈ anexos info.
Proof.
  assert (H : resolver_anexo_por_cnae "62.01-5-01" 600000 (Some 200000%float)
                tabela_software None = Ok "III") by (vm_compute; reflexivity).
  split; [exact H|].
  exact (resolver_anexo_entre_candidatos "62.01-5-01" 600000 (Some 200000%float)
           tabela_software "III" H).
Defined.

(** X8. When the Factor R rule does not apply (the flag is off, or the
    candidate set is not {"III", "V"}), the first stored candidate is
    returned, for every revenue and payroll; the order of the list decides. *)
Theorem resolver_anexo_primeiro
    (c : string) (r : float) (folha : option float)
    (tabela : gmap string CNAEInfo) (info : CNAEInfo) (x : string) (l : list string) :
  tabela !! c = Some info → anexos info = x :: l →
  fator_r info = false ∨ list_to_set (anexos info) ≠ III_V →
  resolver_anexo_por_cnae c r folha tabela None = Ok x.
Proof.
  intros Hc Ha Hnao. rewrite (resolver_na_tabela _ _ _ _ _ Hc).
  assert (E : bool_decide (list_to_set (anexos info) = III_V) && fator_r info = false).
  { destruct Hnao as [-> | Hne]; [apply andb_false_r|].
    by rewrite bool_decide_eq_false_2. }
  rewrite E, Ha. simpl. by destruct (length l =? 0)%nat.
Qed.

Lemma resolver_anexo_primeiro_witness :
  tabela_mista !! "10.00-0-00" = Some info_misto ∧
  anexos info_misto = "II" :: ["I"] ∧
  fator_r info_misto = false ∧
  resolver_anexo_por_cnae "10.00-0-00" 500000 None tabela_mista None = Ok "II".
Proof.
  assert (H1 : tabela_mista !! "10.00-0-00" = Some info_misto)
    by (vm_compute; reflexivity).
  split; [exact H1|]. split; [reflexivity|]. split; [reflexivity|].
  exact (resolver_anexo_primeiro "10.00-0-00" 500000 None tabela_mista info_misto
           "II" ["I"] H1 eq_refl (or_introl eq_refl)).
Defined.

(** ** [carregar_tabela_cnae] *)

Section MaisCarga.

Implicit Types (obj : list item) (t : gmap string CNAEInfo) (c : string).

Lemma carregar_loop_Raise obj t e :
  carregar_loop obj t = Raise e ↔
  e = KeyError_item "cnae" ∧ Exists (λ it, item_cnae it = None) obj.
Proof.
  revert t. induction obj as [|it obj IH]; intros t; simpl.
  - split; [done|]. intros [_ H]. by apply Exists_nil in H.
  - destruct (item_cnae it) as [k|] eqn:Hk.
    + rewrite IH, Exists_cons. split; intros [-> H]; (split; [done|]).
      * by right.
      * destruct H as [H|H]; [congruence | done].
    + rewrite Exists_cons. split; [intros [= <-]; auto | by intros [-> _]].
Qed.

Lemma carregar_loop_Ok_inv obj t t' :
  carregar_loop obj t = Ok t' → Forall (λ it, is_Some (item_cnae it)) obj.
Proof.
  revert t. induction obj as [|it obj IH]; intros t; simpl; [by constructor|].
  destruct (item_cnae it) as [k|] eqn:Hk; [|done].
  intros H. constructor; [by rewrite Hk | by eapply IH].
Qed.

(** The entry of a code after the loop: made from the last item with that
    code, or the one it had before when no item has the code. *)
Lemma carregar_loop_lookup obj t t' c :
  carregar_loop obj t = Ok t' →
  t' !! c = match last (itens_de c obj) with
            | Some it => Some (info_de c it)
            | None => t !! c
            end.
Proof.
  revert t. induction obj as [|it obj IH]; intros t; simpl.
  - by intros [= ->].
  - destruct (item_cnae it) as [k|] eqn:Hk; [|done].
    intros H. rewrite (IH _ H). unfold itens_de. rewrite filter_cons.
    destruct (decide (item_cnae it = Some c)) as [Hc|Hc].
    + rewrite last_cons. destruct (last (filter _ obj)); [done|].
      assert (k = c) as -> by congruence. apply lookup_insert_eq.
    + destruct (last (filter _ obj)); [done|].
      apply lookup_insert_ne. congruence.
Qed.

Lemma carregar_loop_union obj t t0 t' :
  carregar_loop obj ∅ = Ok t → carregar_loop obj t0 = Ok t' → t' = t ∪ t0.
Proof.
  intros H H'. apply map_eq. intros c.
  rewrite lookup_union, (carregar_loop_lookup _ _ _ c H), (carregar_loop_lookup _ _ _ c H').
  destruct (last (itens_de c obj)); simpl.
  - by destruct (t0 !! c).
  - rewrite lookup_empty. by destruct (t0 !! c).
Qed.

Lemma carregar_loop_size obj t t' :
  carregar_loop obj t = Ok t' → size t' ≤ size t + length obj.
Proof.
  revert t. induction obj as [|it obj IH]; intros t; simpl.
  - intros [= ->]. lia.
  - destruct (item_cnae it) as [k|]; [|done].
    intros H%IH. rewrite map_size_insert in H.
    destruct (t !! k); simpl in H; lia.
Qed.

Lemma itens_de_vazio obj c : itens_de c obj = [] ↔ c ∉ codigos obj.
Proof.
  unfold itens_de, codigos. rewrite list_elem_of_omap. split.
  - intros H (it & Hin & Hc).
    assert (Hf : it ∈ filter (λ it, item_cnae it = Some c) obj)
      by (by apply list_elem_of_filter).
    rewrite H in Hf. by apply elem_of_nil in Hf.
  - intros H. destruct (filter _ obj) as [|it l] eqn:E; [done|].
    exfalso. apply H. exists it.
    assert (Hf : it ∈ filter (λ it, item_cnae it = Some c) obj)
      by (rewrite E; left).
    apply list_elem_of_filter in Hf as [Hc Hin]. done.
Qed.

Lemma carregar_dom obj t :
  carregar_tabela_cnae obj = Ok t → dom t = list_to_set (codigos obj).
Proof.
  intros H. apply set_eq. intros c.
  rewrite elem_of_dom, elem_of_list_to_set, (carregar_loop_lookup _ _ _ c H).
  rewrite lookup_empty.
  destruct (last (itens_de c obj)) as [it|] eqn:E.
  - split; [intros _ | by eauto].
    destruct (decide (c ∈ codigos obj)) as [|Hn]; [done|].
    apply itens_de_vazio in Hn. by rewrite Hn in E.
  - apply last_None, itens_de_vazio in E. split; [by intros [? ?] | done].
Qed.

Lemma length_codigos obj :
  Forall (λ it, is_Some (item_cnae it)) obj → length (codigos obj) = length obj.
Proof.
  unfold codigos. induction 1 as [|it obj [k Hk] _ IH]; [done|].
  change (omap item_cnae (it :: obj))
    with (match item_cnae it with
          | Some k => k :: omap item_cnae obj
          | None => omap item_cnae obj
          end).
  rewrite Hk. simpl. by f_equal.
Qed.

End MaisCarga.

(** X9. [carregar_tabela_cnae] raises exactly when some item lacks the
    ["cnae"] key, and the exception is the [KeyError] of [item["cnae"]]; with
    the key in every item it returns a table. The other four keys are never
    required. *)
Theorem carregar_tabela_cnae_erro (obj : list item) (e : exn) :
  carregar_tabela_cnae obj = Raise e ↔
  e = KeyError_item "cnae" ∧ Exists (λ it, item_cnae it = None) obj.
Proof. apply carregar_loop_Raise. Qed.

Lemma carregar_tabela_cnae_erro_witness :
  carregar_tabela_cnae [item_comercio; mkItem None (Some "sem codigo") None None None]
  = Raise (KeyError_item "cnae").
Proof.
  apply (proj2 (carregar_tabela_cnae_erro _ _)).
  split; [reflexivity|]. apply Exists_cons_tl, Exists_cons_hd. reflexivity.
Defined.

(** X10. In the table [carregar_tabela_cnae] returns, the entry of a code is
    the record made from the last item of the input that carries the code,
    and there is no entry when no item carries it. *)
Theorem carregar_tabela_cnae_lookup (obj : list item) (t : gmap string CNAEInfo) :
  carregar_tabela_cnae obj = Ok t →
  ∀ c, t !! c = info_de c <$> last (itens_de c obj).
Proof.
  intros H c. rewrite (carregar_loop_lookup _ _ _ c H), lookup_empty.
  by destruct (last (itens_de c obj)).
Qed.

Lemma carregar_tabela_cnae_lookup_witness :
  carregar_tabela_cnae [item_antigo; item_comercio; item_novo] = Ok tabela_tres ∧
  tabela_tres !! "62.01-5-01" = Some (info_de "62.01-5-01" item_novo) ∧
  tabela_tres !! "00.00-0-00" = None.
Proof.
  assert (Ht : carregar_tabela_cnae [item_antigo; item_comercio; item_novo]
               = Ok tabela_tres) by reflexivity.
  split; [exact Ht|].
  split; rewrite (carregar_tabela_cnae_lookup _ tabela_tres Ht); vm_compute; reflexivity.
Defined.

(** X11. The keys of the built table are exactly the codes of the items; each
    record is stored under its own [cnae]; the table has at most as many
    entries as there are items, and as many when no code is repeated. *)
Theorem carregar_tabela_cnae_chaves (obj : list item) (t : gmap string CNAEInfo) :
  carregar_tabela_cnae obj = Ok t →
  dom t = list_to_set (codigos obj) ∧
  map_Forall (λ c info, cnae info = c) t ∧
  size t ≤ length obj ∧
  (NoDup (codigos obj) → size t = length obj).
Proof.
  intros H. split; [by apply carregar_dom|]. split; [|split].
  - intros c info. rewrite (carregar_loop_lookup _ _ _ c H), lookup_empty.
    destruct (last (itens_de c obj)); [|done]. by intros [= <-].
  - apply carregar_loop_size in H. by rewrite map_size_empty in H.
  - intros Hnd. rewrite <- (size_dom (D := gset string)), (carregar_dom _ _ H).
    rewrite size_list_to_set by done.
    apply length_codigos. by eapply carregar_loop_Ok_inv.
Qed.

Lemma carregar_tabela_cnae_chaves_witness :
  carregar_tabela_cnae [item_antigo; item_comercio; item_novo] = Ok tabela_tres ∧
  dom tabela_tres = ({["62.01-5-01"; "47.51-2-01"]} : gset string) ∧
  size tabela_tres ≤ 3.
Proof.
  assert (Ht : carregar_tabela_cnae [item_antigo; item_comercio; item_novo]
               = Ok tabela_tres) by reflexivity.
  split; [exact Ht|].
  destruct (carregar_tabela_cnae_chaves _ tabela_tres Ht) as (Hdom & _ & Hsize & _).
  split; [|exact Hsize]. rewrite Hdom. vm_compute. reflexivity.
Defined.

(** X12. Loading a concatenation gives the table of the second part laid over
    the table of the first: where both have a code, the second part wins. *)
Theorem carregar_tabela_cnae_app (obj1 obj2 : list item) (t1 t2 : gmap string CNAEInfo) :
  carregar_tabela_cnae obj1 = Ok t1 → carregar_tabela_cnae obj2 = Ok t2 →
  carregar_tabela_cnae (obj1 ++ obj2) = Ok (t2 ∪ t1).
Proof.
  unfold carregar_tabela_cnae. intros H1 H2.
  rewrite carregar_loop_app, H1. simpl.
  destruct (carregar_loop_Ok obj2 t1 (carregar_loop_Ok_inv _ _ _ H2)) as [t' Ht'].
  by rewrite Ht', (carregar_loop_union _ _ _ _ H2 Ht').
Qed.

Lemma carregar_tabela_cnae_app_witness :
  carregar_tabela_cnae [item_antigo; item_comercio] = Ok tabela_antigo_comercio ∧
  carregar_tabela_cnae [item_novo] = Ok tabela_novo ∧
  carregar_tabela_cnae ([item_antigo; item_comercio] ++ [item_novo])
    = Ok (tabela_novo ∪ tabela_antigo_comercio).
Proof.
  assert (H1 : carregar_tabela_cnae [item_antigo; item_comercio]
               = Ok tabela_antigo_comercio) by reflexivity.
  assert (H2 : carregar_tabela_cnae [item_novo] = Ok tabela_novo) by reflexivity.
  split; [exact H1|]. split; [exact H2|].
  exact (carregar_tabela_cnae_app _ _ _ _ H1 H2).
Defined.


(** ** [obter_aliquota_por_cnae] *)

Section MaisObter.

Implicit Types (c : string) (r : float) (folha : option float).
Implicit Types (tabela : gmap string CNAEInfo).

Lemma obter_aliquota_Ok c r folha tabela forcado res :
  obter_aliquota_por_cnae c r folha tabela forcado = Ok res ↔
  ∃ a f x,
    resolver_anexo_por_cnae c r folha tabela forcado = Ok a ∧
    faixa_por_rbt12 r = Ok f ∧ aliquota_de a f = Some x ∧
    res = mkResultado a f x (x * 100)%float r (r / 12)%float.
Proof.
  rewrite obter_aliquota_eq.
  destruct (resolver_anexo_por_cnae c r folha tabela forcado) as [a|e]; simpl.
  - destruct (aliquota_nominal_por_anexo a r) as [[f x]|e] eqn:E; simpl.
    + apply aliquota_nominal_Ok in E as [Hf Hx]. split.
      * intros [= <-]. by exists a, f, x.
      * intros (a' & f' & x' & [= <-] & Hf' & Hx' & ->).
        rewrite Hf in Hf'. injection Hf' as <-.
        rewrite Hx in Hx'. by injection Hx' as <-.
    + split; [done|]. intros (a' & f' & x' & [= <-] & Hf' & Hx' & _).
      assert (H : aliquota_nominal_por_anexo a r = Ok (f', x'))
        by (by apply aliquota_nominal_Ok).
      congruence.
  - split; [done|]. by intros (a' & f' & x' & ? & _).
Qed.

Lemma obter_aliquota_ext c r folha tabela tabela' forcado :
  tabela !! c = tabela' !! c →
  obter_aliquota_por_cnae c r folha tabela forcado =
  obter_aliquota_por_cnae c r folha tabela' forcado.
Proof.
  intros H. rewrite !obter_aliquota_eq.
  by rewrite (resolver_ext c r folha tabela tabela' forcado H).
Qed.

End MaisObter.

(** X13. Resolution against built tables depends on the input only through
    the last item that carries the code: two inputs that agree on it give the
    same annex and the same result (or the same exception), whatever else
    they hold. *)
Theorem resolucao_pelo_ultimo_item
    (obj obj' : list item) (t t' : gmap string CNAEInfo)
    (c : string) (r : float) (folha : option float) (forcado : option string) :
  carregar_tabela_cnae obj = Ok t → carregar_tabela_cnae obj' = Ok t' →
  last (itens_de c obj) = last (itens_de c obj') →
  resolver_anexo_por_cnae c r folha t forcado =
    resolver_anexo_por_cnae c r folha t' forcado ∧
  obter_aliquota_por_cnae c r folha t forcado =
    obter_aliquota_por_cnae c r folha t' forcado.
Proof.
  intros H H' Hlast.
  assert (Hc : t !! c = t' !! c).
  { rewrite (carregar_loop_lookup _ _ _ c H), (carregar_loop_lookup _ _ _ c H').
    by rewrite Hlast. }
  split; [by apply resolver_ext | by apply obter_aliquota_ext].
Qed.

Lemma resolucao_pelo_ultimo_item_witness :
  carregar_tabela_cnae [item_antigo; item_comercio; item_novo] = Ok tabela_tres ∧
  carregar_tabela_cnae [item_novo] = Ok tabela_novo ∧
  last (itens_de "62.01-5-01" [item_antigo; item_comercio; item_novo])
    = last (itens_de "62.01-5-01" [item_novo]) ∧
  obter_aliquota_por_cnae "62.01-5-01" 600000 (Some 200000%float) tabela_tres None =
    obter_aliquota_por_cnae "62.01-5-01" 600000 (Some 200000%float) tabela_novo None.
Proof.
  assert (H1 : carregar_tabela_cnae [item_antigo; item_comercio; item_novo]
               = Ok tabela_tres) by reflexivity.
  assert (H2 : carregar_tabela_cnae [item_novo] = Ok tabela_novo) by reflexivity.
  assert (H3 : last (itens_de "62.01-5-01" [item_antigo; item_comercio; item_novo])
               = last (itens_de "62.01-5-01" [item_novo])) by (vm_compute; reflexivity).
  split; [exact H1|]. split; [exact H2|]. split; [exact H3|].
  exact (proj2 (resolucao_pelo_ultimo_item _ _ _ _ "62.01-5-01" 600000
                  (Some 200000%float) None H1 H2 H3)).
Defined.

(** X14. Whatever [obter_aliquota_por_cnae] returns is consistent and valid:
    its annex is the one [resolver_anexo_por_cnae] gives and is one of
    "I".."V" (an override outside them never yields a result), its bracket is
    the one of [faixa_por_rbt12] and lies in 1..6, its rate is the table's
    entry for that annex and bracket and lies in [0, 1), and the revenue is
    within 0 and 4 800 000. *)
Theorem obter_aliquota_resultado_valido
    (c : string) (r : float) (folha : option float)
    (tabela : gmap string CNAEInfo) (forcado : option string) (res : Resultado) :
  obter_aliquota_por_cnae c r folha tabela forcado = Ok res →
  resolver_anexo_por_cnae c r folha tabela forcado = Ok (anexo res) ∧
  faixa_por_rbt12 r = Ok (faixa res) ∧
  ALIQUOTAS_NOMINAIS !! anexo res ≫= (.!! faixa res) = Some (aliquota_nominal res) ∧
  anexo res ∈ ANEXOS ∧ faixa res ∈ BRACKETS ∧
  (0 <=? aliquota_nominal res)%float = true ∧
  (aliquota_nominal res <? 1)%float = true ∧
  no_limite r = true.
Proof.
  intros (a & f & x & Ha & Hf & Hx & ->)%obter_aliquota_Ok. simpl.
  destruct (aliquota_de_inv _ _ _ Hx) as [Han Hb].
  destruct (aliquota_de_Some a f Han Hb) as (y & Hy & H0 & H1).
  assert (y = x) as -> by congruence.
  destruct (faixa_por_rbt12_Ok _ _ Hf) as (_ & Hr0 & Hr1).
  unfold no_limite. rewrite Hr0, Hr1. done.
Qed.

Lemma obter_aliquota_resultado_valido_witness :
  obter_aliquota_por_cnae "47.51-2-01" 500000 None tabela_comercio None
    = Ok (mkResultado "I" 3 0.095 (0.095 * 100) 500000 (500000 / 12)) ∧
  "I" ∈ ANEXOS ∧ (3 : Z) ∈ BRACKETS ∧ no_limite 500000 = true.
Proof.
  assert (H : obter_aliquota_por_cnae "47.51-2-01" 500000 None tabela_comercio None
              = Ok (mkResultado "I" 3 0.095 (0.095 * 100) 500000 (500000 / 12)))
    by (vm_compute; reflexivity).
  split; [exact H|].
  destruct (obter_aliquota_resultado_valido _ _ _ _ _ _ H)
    as (_ & _ & _ & Ha & Hb & _ & _ & Hr).
  split; [exact Ha|]. split; [exact Hb | exact Hr].
Defined.

(** X15. [obter_aliquota_por_cnae] raises exactly what its two steps raise,
    the annex first: an exception of [resolver_anexo_por_cnae] comes out
    whatever the revenue is; otherwise, with the annex [a] resolved, it is
    the [ValueError] of a revenue without bracket, or, for a revenue with
    bracket [f], the [KeyError] for [a] and [f] when [a] is none of
    "I".."V". The division by 12 never raises. *)
Theorem obter_aliquota_erros
    (c : string) (r : float) (folha : option float)
    (tabela : gmap string CNAEInfo) (forcado : option string) (e : exn) :
  obter_aliquota_por_cnae c r folha tabela forcado = Raise e ↔
  resolver_anexo_por_cnae c r folha tabela forcado = Raise e ∨
  ∃ a, resolver_anexo_por_cnae c r folha tabela forcado = Ok a ∧
       ((faixa_por_rbt12 r = Raise e ∧ e = ValueError_fora_do_limite) ∨
        (∃ f, faixa_por_rbt12 r = Ok f ∧ (a ∉ ANEXOS) ∧ e = KeyError_aliquota a f)).
Proof.
  rewrite obter_aliquota_eq.
  destruct (resolver_anexo_por_cnae c r folha tabela forcado) as [a|e0]; simpl.
  - rewrite aliquota_nominal_eq.
    destruct (faixa_por_rbt12 r) as [f|e1] eqn:Hf; simpl.
    + destruct (aliquota_de a f) as [x|] eqn:Hx; simpl.
      * split; [done|]. intros [? | (a' & [= <-] & [[? _] | (f' & [= <-] & Hn & _)])];
          try done.
        destruct (aliquota_de_inv _ _ _ Hx) as [Ha _]. done.
      * split.
        -- intros [= <-]. right. exists a. split; [done|]. right. exists f.
           split; [done|]. split; [|done]. intros Ha.
           destruct (faixa_por_rbt12_Ok _ _ Hf) as [Hb _].
           destruct (aliquota_de_Some a f Ha Hb) as (y & Hy & _). congruence.
        -- intros [? | (a' & [= <-] & [[? _] | (f' & [= <-] & _ & ->)])]; done.
    + pose proof (faixa_por_rbt12_Raise _ _ Hf) as ->. split.
      * intros [= <-]. right. exists a. split; [done|]. by left.
      * intros [? | (a' & _ & [[[= <-] _] | (f' & ? & _)])]; done.
  - split; [intros [= ->]; by left|]. intros [[= ->] | (a & ? & _)]; done.
Qed.

Lemma obter_aliquota_erros_witness :
  obter_aliquota_por_cnae "00.00-0-00" 9000000 None tabela_comercio None
  = Raise (KeyError_cnae "00.00-0-00").
Proof.
  apply (proj2 (obter_aliquota_erros "00.00-0-00" 9000000 None tabela_comercio None
                  (KeyError_cnae "00.00-0-00"))).
  left. vm_compute. reflexivity.
Defined.

(** X16. With a non-empty override the result does not depend on the code,
    the payroll or the table: it is the bracket and rate of the override's
    annex for the revenue. *)
Theorem obter_aliquota_forcado
    (c c' : string) (r : float) (folha folha' : option float)
    (tabela tabela' : gmap string CNAEInfo) (a : string) :
  a ≠ "" →
  obter_aliquota_por_cnae c r folha tabela (Some a) =
    obter_aliquota_por_cnae c' r folha' tabela' (Some a) ∧
  (λ res, (anexo res, faixa res, aliquota_nominal res))
    <$> obter_aliquota_por_cnae c r folha tabela (Some a)
  = (λ fx, (a, fx.1, fx.2)) <$> aliquota_nominal_por_anexo a r.
Proof.
  intros Ha. rewrite !obter_aliquota_eq, !(resolver_forcado _ _ _ _ _ Ha). simpl.
  split; [done|]. by destruct (aliquota_nominal_por_anexo a r) as [[f x]|e].
Qed.

Lemma obter_aliquota_forcado_witness :
  "IV" ≠ "" ∧
  obter_aliquota_por_cnae "47.51-2-01" 500000 None tabela_comercio (Some "IV") =
    obter_aliquota_por_cnae "00.00-0-00" 500000 (Some 1%float) ∅ (Some "IV").
Proof.
  split; [discriminate|].
  refine (proj1 (obter_aliquota_forcado "47.51-2-01" "00.00-0-00" 500000 None
                   (Some 1%float) tabela_comercio ∅ "IV" _)).
  discriminate.
Defined.


(** ** The revenues without a bracket *)

Section Lacunas.
Import FloatOrder.

Ltac na_lista := repeat first [ solve [left] | right ].

(** On values that are not NaN the order is total. *)
Lemma SFleb_false_ltb (x y : spec_float) :
  SFleb x y = false → SFleb x x = true → SFleb y y = true → SFltb y x = true.
Proof.
  unfold SFleb, SFltb.
  destruct x as [[]|[]| |[] m1 e1], y as [[]|[]| |[] m2 e2];
    try (simpl; congruence); order_cases.
Qed.

Lemma SFleb_refl_r (x y : spec_float) : SFleb x y = true → SFleb y y = true.
Proof.
  unfold SFleb.
  destruct x as [[]|[]| |[] m1 e1], y as [[]|[]| |[] m2 e2];
    try (simpl; congruence); order_cases.
Qed.

Lemma leb_false_ltb (a x y : float) :
  (a <=? x)%float = true → (y <=? y)%float = true →
  (x <=? y)%float = false → (y <? x)%float = true.
Proof.
  rewrite !FloatAxioms.leb_spec, FloatAxioms.ltb_spec. intros Ha Hy Hxy.
  apply SFleb_false_ltb; [done | by apply (SFleb_refl_r (Prim2SF a)) | done].
Qed.

Lemma leb_false_ltb_r (a x y : float) :
  (a <=? x)%float = true → (y <=? y)%float = true →
  (y <=? x)%float = false → (x <? y)%float = true.
Proof.
  rewrite !FloatAxioms.leb_spec, FloatAxioms.ltb_spec. intros Ha Hy Hxy.
  apply SFleb_false_ltb; [done | done | by apply (SFleb_refl_r (Prim2SF a))].
Qed.

(** A revenue within the limits that no row contains is in a gap. *)
Lemma fora_das_linhas_na_lacuna r :
  no_limite r = true →
  (∀ linha, linha ∈ FAIXAS → na_faixa linha r = false) →
  Exists (λ lacuna, na_lacuna lacuna r = true) LACUNAS.
Proof.
  unfold no_limite. intros [H0 H1]%andb_true_iff Hall.
  assert (Hrow : ∀ f ini fim, (f, ini, fim) ∈ FAIXAS →
            (ini <=? r)%float = true → (r <=? fim)%float = false).
  { intros f ini fim Hin Hi. specialize (Hall _ Hin). simpl in Hall.
    by rewrite Hi in Hall. }
  assert (Hlt : ∀ y, (y <=? y)%float = true → (r <=? y)%float = false →
                     (y <? r)%float = true)
    by (intros y Hy; by apply (leb_false_ltb 0)).
  assert (Hgt : ∀ y, (y <=? y)%float = true → (y <=? r)%float = false →
                     (r <? y)%float = true)
    by (intros y Hy; by apply (leb_false_ltb_r 0)).
  unfold LACUNAS, FAIXAS in *. simpl.
  pose proof (Hrow 1%Z 0%float 180000%float ltac:(na_lista) H0) as F1.
  destruct (180000.01 <=? r)%float eqn:I2.
  2:{ apply Exists_cons_hd. unfold na_lacuna. simpl.
      by rewrite (Hlt 180000%float eq_refl F1), (Hgt 180000.01%float eq_refl I2). }
  apply Exists_cons_tl.
  pose proof (Hrow 2%Z 180000.01%float 360000%float ltac:(na_lista) I2) as F2.
  destruct (360000.01 <=? r)%float eqn:I3.
  2:{ apply Exists_cons_hd. unfold na_lacuna. simpl.
      by rewrite (Hlt 360000%float eq_refl F2), (Hgt 360000.01%float eq_refl I3). }
  apply Exists_cons_tl.
  pose proof (Hrow 3%Z 360000.01%float 720000%float ltac:(na_lista) I3) as F3.
  destruct (720000.01 <=? r)%float eqn:I4.
  2:{ apply Exists_cons_hd. unfold na_lacuna. simpl.
      by rewrite (Hlt 720000%float eq_refl F3), (Hgt 720000.01%float eq_refl I4). }
  apply Exists_cons_tl.
  pose proof (Hrow 4%Z 720000.01%float 1800000%float ltac:(na_lista) I4) as F4.
  destruct (1800000.01 <=? r)%float eqn:I5.
  2:{ apply Exists_cons_hd. unfold na_lacuna. simpl.
      by rewrite (Hlt 1800000%float eq_refl F4), (Hgt 1800000.01%float eq_refl I5). }
  apply Exists_cons_tl.
  pose proof (Hrow 5%Z 1800000.01%float 3600000%float ltac:(na_lista) I5) as F5.
  destruct (3600000.01 <=? r)%float eqn:I6.
  2:{ apply Exists_cons_hd. unfold na_lacuna. simpl.
      by rewrite (Hlt 3600000%float eq_refl F5), (Hgt 3600000.01%float eq_refl I6). }
  pose proof (Hrow 6%Z 3600000.01%float 4800000%float ltac:(na_lista) I6) as F6. congruence.
Qed.

(** A revenue in a gap is in no row. *)
Lemma na_lacuna_fora_das_linhas lacuna linha r :
  lacuna ∈ LACUNAS → linha ∈ FAIXAS →
  na_lacuna lacuna r = true → na_faixa linha r = false.
Proof.
  unfold LACUNAS, FAIXAS. simpl. rewrite !elem_of_cons, !elem_of_nil.
  intros Hl Hf.
  repeat destruct Hl as [-> | Hl]; try done;
    repeat destruct Hf as [-> | Hf]; try done;
    unfold na_lacuna, na_faixa; simpl;
    intros [Hlo%ltb_leb_false Hhi%ltb_leb_false]%andb_true_iff;
    apply andb_false_iff;
    first
      [ right; exact Hlo
      | left; exact Hhi
      | right;
        match goal with
        | |- (r <=? ?x)%float = false =>
            destruct (r <=? x)%float eqn:E; [exfalso|done];
            match type of Hlo with
            | (_ <=? ?y)%float = false =>
                rewrite (leb_trans r x y E eq_refl) in Hlo; discriminate Hlo
            end
        end
      | left;
        match goal with
        | |- (?x <=? r)%float = false =>
            destruct (x <=? r)%float eqn:E; [exfalso|done];
            match type of Hhi with
            | (?y <=? _)%float = false =>
                rewrite (leb_trans y x r eq_refl E) in Hhi; discriminate Hhi
            end
        end ].
Qed.

End Lacunas.

Example LACUNAS_valor :
  LACUNAS = [ (180000.00, 180000.01); (360000.00, 360000.01); (720000.00, 720000.01);
              (1800000.00, 1800000.01); (3600000.00, 3600000.01) ]%float.
Proof. reflexivity. Qed.

(** X17. Within 0 <= r <= 4 800 000 the revenues for which
    [faixa_por_rbt12] raises are exactly those strictly between the upper
    bound of one row of [FAIXAS] and the lower bound of the next (180000.00
    and 180000.01, and so on); every other revenue within the limits gets a
    bracket. *)
Theorem faixa_por_rbt12_lacunas (r : float) :
  no_limite r = true →
  (faixa_por_rbt12 r = Raise ValueError_fora_do_limite ↔
   Exists (λ lacuna, na_lacuna lacuna r = true) LACUNAS).
Proof.
  intros Hr. split.
  - intros [_ Hall]%faixa_loop_Raise. by apply fora_das_linhas_na_lacuna.
  - intros (lacuna & Hin & Hl)%Exists_exists.
    destruct (faixa_por_rbt12 r) as [f|e] eqn:E.
    + apply faixa_loop_Ok in E as (ini & fim & Hf & Hna).
      by rewrite (na_lacuna_fora_das_linhas _ _ _ Hin Hf Hl) in Hna.
    + by apply faixa_por_rbt12_Raise in E as ->.
Qed.

Lemma faixa_por_rbt12_lacunas_witness :
  no_limite 180000.005 = true ∧
  Exists (λ lacuna, na_lacuna lacuna 180000.005 = true) LACUNAS ∧
  faixa_por_rbt12 180000.005 = Raise ValueError_fora_do_limite.
Proof.
  assert (H1 : no_limite 180000.005 = true) by (vm_compute; reflexivity).
  assert (H2 : Exists (λ lacuna, na_lacuna lacuna 180000.005 = true) LACUNAS)
    by (apply Exists_cons_hd; vm_compute; reflexivity).
  split; [exact H1|]. split; [exact H2|].
  exact (proj2 (faixa_por_rbt12_lacunas 180000.005 H1) H2).
Defined.

(** X18. On the Factor R path (candidate set {"III", "V"}, flag set, no
    override) the answer is "III" exactly when a payroll is given, the
    revenue is not <= 0 and the computed quotient payroll / revenue is
    >= 0.28; in every other case, a quotient or revenue that is NaN included,
    it is "V". *)
Theorem resolver_anexo_fator_r_III
    (c : string) (r : float) (folha : option float)
    (tabela : gmap string CNAEInfo) (info : CNAEInfo) :
  tabela !! c = Some info →
  list_to_set (anexos info) = III_V →
  fator_r info = true →
  (resolver_anexo_por_cnae c r folha tabela None = Ok "III" ↔
   ∃ p, folha = Some p ∧ (r <=? 0)%float = false ∧ (0.28 <=? p / r)%float = true) ∧
  (resolver_anexo_por_cnae c r folha tabela None = Ok "III" ∨
   resolver_anexo_por_cnae c r folha tabela None = Ok "V").
Proof.
  intros H Hset Hfr. rewrite (resolver_fator_r_eq _ _ _ _ _ H Hset Hfr).
  destruct folha as [p|].
  - destruct (r <=? 0)%float eqn:Hr.
    + split; [|by right]. split; [done|]. by intros (q & _ & ? & _).
    + destruct (0.28 <=? p / r)%float eqn:Hq.
      * split; [|by left]. split; [|done]. intros _. by exists p.
      * split; [|by right]. split; [done|].
        intros (q & [= <-] & _ & Hq'). congruence.
  - split; [|by right]. split; [done|]. by intros (q & ? & _).
Qed.

Lemma resolver_anexo_fator_r_III_witness :
  tabela_software !! "62.01-5-01" = Some info_software ∧
  list_to_set (anexos info_software) = III_V ∧
  fator_r info_software = true ∧
  resolver_anexo_por_cnae "62.01-5-01" nan (Some 200000%float) tabela_software None
    ≠ Ok "III".
Proof.
  assert (H1 : tabela_software !! "62.01-5-01" = Some info_software)
    by (vm_compute; reflexivity).
  assert (H2 : list_to_set (anexos info_software) = III_V)
    by (vm_compute; reflexivity).
  assert (H3 : fator_r info_software = true) by reflexivity.
  split; [exact H1|]. split; [exact H2|]. split; [exact H3|].
  intros HIII.
  destruct (proj1 (proj1 (resolver_anexo_fator_r_III "62.01-5-01" nan
                            (Some 200000%float) tabela_software info_software
                            H1 H2 H3)) HIII) as (p & [= <-] & _ & Hq).
  vm_compute in Hq. discriminate Hq.
Defined.
